(** * Indexing.ipynb: the indexing-policy notebook, cell by cell

    The notebook is a linear script over the azure.cosmos client, urllib,
    json and time.  Its code cells are embedded below as programs of a small
    exception-and-trace monad over an environment [Env] that stands for
    everything outside the notebook: the remote Cosmos DB account seen
    through the SDK, the blob endpoint, the JSON parser and the clock.
    Every external call, every [print], every [time.sleep] and every raised
    exception is recorded in an event trace, so that the theorems can speak
    about what the script does whatever the environment answers. *)

From Stdlib Require Import ZArith List Lia Ascii String.
From stdpp Require Import base option list strings pretty gmap.

Set Warnings "-register-all".
Open Scope Z_scope.

(** ** Python-side data *)

(** The exceptions the notebook can see.  The [except] clause of cell 1
    names [azure.cosmos.errors.CosmosHttpResponseError]; [KeyError] comes
    from indexing the response-header dict, [TypeError] from iterating a
    JSON value that is not iterable; everything else (URLError,
    JSONDecodeError, ...) is an [OtherError]. *)
Inductive exn :=
| CosmosHttpResponseError (status_code : Z)
| KeyError (key : string)
| TypeError
| OtherError (name : string).

#[global] Instance exn_eq_dec : EqDecision exn.
Proof. solve_decision. Defined.

(** What [json.loads] returns. *)
Inductive json :=
| JNull
| JBool (b : bool)
| JInt (n : Z)
| JFloat (repr : string)
| JStr (s : string)
| JArr (elems : list json)
| JObj (fields : list (string * json)).

(** [doc[key]] on a JSON object, as a partial lookup. *)
Fixpoint assoc (key : string) (fields : list (string * json)) : option json :=
  match fields with
  | [] => None
  | (k, v) :: rest => if String.eqb k key then Some v else assoc key rest
  end.

Definition field (doc : json) (key : string) : option json :=
  match doc with
  | JObj fields => assoc key fields
  | _ => None
  end.

Fixpoint chars (s : string) : list json :=
  match s with
  | EmptyString => []
  | String c rest => JStr (String c EmptyString) :: chars rest
  end.

(** [for doc in docs]: a list yields its elements, a dict its keys, a str
    its characters; the other JSON values are not iterable. *)
Definition py_iter (v : json) : exn + list json :=
  match v with
  | JArr elems => inr elems
  | JObj fields => inr (map (fun kv => JStr (fst kv)) fields)
  | JStr s => inr (chars s)
  | _ => inl TypeError
  end.

Definition dquote : string := String "034"%char EmptyString.
Definition cr : string := String "013"%char EmptyString.
Definition nl : string := String "010"%char EmptyString.

Fixpoint spaces (n : nat) : string :=
  match n with
  | O => EmptyString
  | S n' => String " "%char (spaces n')
  end.

(** ["%5d" % n]: decimal, right-justified in a field of width five. *)
Definition fmt_5d (n : Z) : string :=
  let s := pretty n in spaces (5 - String.length s) +:+ s.

(** ** The resources of the service, as the script names them *)

Record PartitionKey := { path : string }.

Inductive IndexingMode := consistent | none.

Record IndexingPolicy := {
  indexingMode : IndexingMode;
  includedPaths : list string;
  excludedPaths : list string }.

(** The entries yielded by [list_containers()]; the script reads ['id']. *)
Record ContainerProperties := { id : string }.

(** [get_database_client] and [get_container_client] build local proxies
    that only remember the names. *)
Record DatabaseProxy := { database_id : string }.
Record ContainerProxy := { of_database : string; container_id : string }.

Definition get_database_client (name : string) : DatabaseProxy :=
  {| database_id := name |}.
Definition get_container_client (db : DatabaseProxy) (name : string) : ContainerProxy :=
  {| of_database := database_id db; container_id := name |}.

(** ** Events *)

Inductive api :=
| CreateDatabase (name : string)
| ListContainers (db : string)
| DeleteContainer (db c : string)
| CreateContainer (db c : string) (pk : PartitionKey)
| UrlOpen (url : string)
| CreateItem (db c : string) (body : json)
| QueryItems (db c : string) (query : string) (enable_cross_partition_query : bool)
| ReplaceContainer (db c : string) (pk : PartitionKey) (policy : IndexingPolicy)
| ReadContainer (db c : string) (populate_quota_info : bool)
| DeleteDatabase (name : string).

(** [EvRaised] marks the point where an exception is raised, by the call
    just before it or by a Python operation of the script itself. *)
Inductive event :=
| EvCall (c : api)
| EvRaised (e : exn)
| EvPrint (written : string)
| EvSleep (secs : Z)
| EvTime.

(** ** The environment *)

Record Env := {
  World : Type;
  Clock : Type;
  float : Type;
  (* time *)
  time_time : Clock -> float * Clock;
  time_sleep : Z -> Clock -> Clock;
  (* ['%d' % ((end - start) * 1000)] *)
  fmt_ms : float -> float -> string;
  (* urllib.request.urlopen(url).read().decode(), json.loads *)
  urlopen_read : string -> World -> (exn + string) * World;
  json_loads : string -> exn + json;
  (* azure.cosmos *)
  create_database : string -> World -> (exn + unit) * World;
  list_containers : string -> World -> (exn + list ContainerProperties) * World;
  delete_container : string -> string -> World -> (exn + unit) * World;
  create_container : string -> string -> PartitionKey -> World -> (exn + unit) * World;
  create_item : string -> string -> json -> World -> (exn + json) * World;
  query_items : string -> string -> string -> bool -> World -> (exn + list json) * World;
  replace_container :
    string -> string -> PartitionKey -> IndexingPolicy -> World -> (exn + unit) * World;
  read_container : string -> string -> bool -> World -> (exn + unit) * World;
  delete_database : string -> World -> (exn + unit) * World;
  (* client_connection.last_response_headers *)
  last_response_headers : World -> gmap string string }.

(** ** The monad of the script *)

Inductive outcome (A : Type) :=
| Ok (a : A)
| Raise (e : exn)
| OutOfFuel.
Arguments Ok {A} a.
Arguments Raise {A} e.
Arguments OutOfFuel {A}.

Section Script.
Variable E : Env.

Record state := { world : World E; clock : Clock E }.

Record Run (A : Type) := {
  events : list event;
  final : state;
  result : outcome A }.
Arguments events {A} r.
Arguments final {A} r.
Arguments result {A} r.

Definition M (A : Type) : Type := state -> Run A.

Definition ret {A} (a : A) : M A :=
  fun st => {| events := []; final := st; result := Ok a |}.

Definition bind {A B} (m : M A) (k : A -> M B) : M B :=
  fun st =>
    let r := m st in
    match result r with
    | Ok a =>
        let r' := k a (final r) in
        {| events := events r ++ events r'; final := final r'; result := result r' |}
    | Raise e => {| events := events r; final := final r; result := Raise e |}
    | OutOfFuel => {| events := events r; final := final r; result := OutOfFuel |}
    end.

(** An exception that originates here. *)
Definition throw {A} (e : exn) : M A :=
  fun st => {| events := [EvRaised e]; final := st; result := Raise e |}.

(** The bare [raise] of an [except] clause: the exception in flight goes on. *)
Definition reraise {A} (e : exn) : M A :=
  fun st => {| events := []; final := st; result := Raise e |}.

Definition out_of_fuel {A} : M A :=
  fun st => {| events := []; final := st; result := OutOfFuel |}.

(** [try: body / except <class> as e: handler]; [handler e = None] when
    [e] is not of the class named by the clause. *)
Definition try_except {A} (body : M A) (handler : exn -> option (M A)) : M A :=
  fun st =>
    let r := body st in
    match result r with
    | Raise e =>
        match handler e with
        | Some h =>
            let r' := h (final r) in
            {| events := events r ++ events r'; final := final r'; result := result r' |}
        | None => r
        end
    | _ => r
    end.

Definition call {X} (c : api) (op : World E -> (exn + X) * World E) : M X :=
  fun st =>
    let '(res, w) := op (world st) in
    let st' := {| world := w; clock := clock st |} in
    match res with
    | inr x => {| events := [EvCall c]; final := st'; result := Ok x |}
    | inl e => {| events := [EvCall c; EvRaised e]; final := st'; result := Raise e |}
    end.

Definition lift {X} (r : exn + X) : M X :=
  match r with
  | inr x => ret x
  | inl e => throw e
  end.

Definition print_end (s end_ : string) : M unit :=
  fun st => {| events := [EvPrint (s +:+ end_)]; final := st; result := Ok tt |}.

Definition print (s : string) : M unit := print_end s nl.

Definition sleep (secs : Z) : M unit :=
  fun st =>
    {| events := [EvSleep secs];
       final := {| world := world st; clock := time_sleep E secs (clock st) |};
       result := Ok tt |}.

Definition time : M (float E) :=
  fun st =>
    let '(t, c) := time_time E (clock st) in
    {| events := [EvTime]; final := {| world := world st; clock := c |}; result := Ok t |}.

(** [container_client.client_connection.last_response_headers[key]] *)
Definition get_header (key : string) : M string :=
  fun st =>
    match last_response_headers E (world st) !! key with
    | Some v => ret v st
    | None => throw (KeyError key) st
    end.

End Script.

Arguments world {E} s.
Arguments clock {E} s.
Arguments Build_state {E} world clock.
Arguments events {E A} r.
Arguments final {E A} r.
Arguments result {E A} r.
Arguments ret {E A} a st.
Arguments bind {E A B} m k st.
Arguments throw {E A} e st.
Arguments reraise {E A} e st.
Arguments out_of_fuel {E A} st.
Arguments try_except {E A} body handler st.
Arguments call {E X} c op st.
Arguments lift {E X} r st.
Arguments print_end {E} s end_ st.
Arguments print {E} s st.
Arguments sleep {E} secs st.
Arguments time {E} st.
Arguments get_header {E} key st.

#[global] Instance M_ret {E} : MRet (M E) := fun A a => ret a.
#[global] Instance M_bind {E} : MBind (M E) := fun A B k m => bind m k.

(** ** The notebook *)

Definition db_name : string := "iddbtest".
Definition container_name : string := "idcltest".
Definition data_url : string :=
  "https://cosmosnotebooksdata.blob.core.windows.net/notebookdata/indexing.json".
Definition query_field1 : string :=
  "SELECT * FROM c WHERE c.field1 = " +:+ dquote +:+ "Mario86" +:+ dquote.
Definition query_field2 : string := "SELECT * FROM c WHERE c.field2 = 3188".
Definition charge_header : string := "x-ms-request-charge".
Definition progress_header : string :=
  "x-ms-documentdb-collection-index-transformation-progress".

Definition policy_none : IndexingPolicy :=
  {| indexingMode := none; includedPaths := []; excludedPaths := [] |}.
Definition policy_exclude_field2 : IndexingPolicy :=
  {| indexingMode := consistent;
     includedPaths := ["/*"%string];
     excludedPaths := ["/field2/?"%string] |}.

Section Notebook.
Context {E : Env}.

(** The SDK methods, as calls on the proxies. *)
Definition cosmos_create_database (name : string) : M E unit :=
  call (CreateDatabase name) (create_database E name).
Definition cosmos_delete_database (name : string) : M E unit :=
  call (DeleteDatabase name) (delete_database E name).
Definition db_list_containers (db : DatabaseProxy) : M E (list ContainerProperties) :=
  call (ListContainers (database_id db)) (list_containers E (database_id db)).
Definition db_delete_container (db : DatabaseProxy) (name : string) : M E unit :=
  call (DeleteContainer (database_id db) name) (delete_container E (database_id db) name).
Definition db_create_container (db : DatabaseProxy) (name : string) (pk : PartitionKey)
  : M E unit :=
  call (CreateContainer (database_id db) name pk)
       (create_container E (database_id db) name pk).
Definition db_replace_container (db : DatabaseProxy) (c : ContainerProxy)
    (pk : PartitionKey) (policy : IndexingPolicy) : M E unit :=
  call (ReplaceContainer (database_id db) (container_id c) pk policy)
       (replace_container E (database_id db) (container_id c) pk policy).
Definition container_create_item (c : ContainerProxy) (body : json) : M E json :=
  call (CreateItem (of_database c) (container_id c) body)
       (create_item E (of_database c) (container_id c) body).
Definition container_query_items (c : ContainerProxy) (query : string)
    (enable_cross_partition_query : bool) : M E (list json) :=
  call (QueryItems (of_database c) (container_id c) query enable_cross_partition_query)
       (query_items E (of_database c) (container_id c) query enable_cross_partition_query).
Definition container_read (c : ContainerProxy) (populate_quota_info : bool) : M E unit :=
  call (ReadContainer (of_database c) (container_id c) populate_quota_info)
       (read_container E (of_database c) (container_id c) populate_quota_info).
Definition urlopen (url : string) : M E string :=
  call (UrlOpen url) (urlopen_read E url).

(** *** Cell 1: the database, then the container reset *)

(** [except azure.cosmos.errors.CosmosHttpResponseError as e:] with its body. *)
Definition on_cosmos_error (e : exn) : option (M E unit) :=
  match e with
  | CosmosHttpResponseError status_code =>
      Some (if status_code =? 409
            then print "Database already exists"
            else reraise e)
  | _ => None
  end.

Definition create_database_step : M E unit :=
  try_except
    (cosmos_create_database db_name ;;
     print "Database created" ;;
     sleep 2)
    on_cosmos_error.

Definition reset_container (database_client : DatabaseProxy) : M E unit :=
  containers ← db_list_containers database_client;
  (if existsb (fun container => String.eqb (id container) container_name) containers
   then db_delete_container database_client container_name ;;
        print "Container dropped"
   else ret tt) ;;
  db_create_container database_client container_name {| path := "/id" |} ;;
  print "Container created".

Definition cell1 : M E DatabaseProxy :=
  create_database_step ;;
  let database_client := get_database_client db_name in
  reset_container database_client ;;
  ret database_client.

(** *** Cell 3: fetch the documents and insert them one by one *)

Definition progress_line (progress : Z) : M E unit :=
  print_end ("Inserting document: " +:+ fmt_5d progress +:+ " / 10000" +:+ cr) "".

Fixpoint insert_docs (container_client : ContainerProxy) (docs : list json)
    (progress : Z) : M E Z :=
  match docs with
  | [] => ret progress
  | doc :: rest =>
      (if progress mod 10 =? 0 then progress_line progress else ret tt) ;;
      container_create_item container_client doc ;;
      insert_docs container_client rest (progress + 1)
  end.

Definition cell3 (database_client : DatabaseProxy) : M E ContainerProxy :=
  text ← urlopen data_url;
  docs ← lift (json_loads E text);
  let container_client := get_container_client database_client container_name in
  items ← lift (py_iter docs);
  insert_docs container_client items 1 ;;
  ret container_client.

(** *** Cells 5, 9, 13 and 15: query and measure *)

Definition query_cell (query : string) (container_client : ContainerProxy)
  : M E (list json) :=
  start ← time;
  results ← container_query_items container_client query true;
  end_ ← time;
  print ("Got " +:+ pretty (length results) +:+ " result(s)") ;;
  print ("Time elapsed: " +:+ fmt_ms E start end_ +:+ " ms") ;;
  charge ← get_header charge_header;
  print ("Request charge: " +:+ charge +:+ " RUs") ;;
  ret results.

Definition cell5 := query_cell query_field1.
Definition cell9 := query_cell query_field1.
Definition cell13 := query_cell query_field1.
Definition cell15 := query_cell query_field2.

(** *** Cell 7: indexing off *)

Definition cell7 (database_client : DatabaseProxy) (container_client : ContainerProxy)
  : M E unit :=
  db_replace_container database_client container_client {| path := "/id" |} policy_none ;;
  print "Indexing policy updated".

(** *** Cell 11: everything but field2 indexed, then wait for the transformation *)

Definition progress_report (index_transformation_progress : string) : M E unit :=
  print_end (cr +:+ "Current index transformation progress: "
             +:+ index_transformation_progress +:+ "%") "".

(** One poll: read the container, take the progress header, print it. *)
Definition poll (container_client : ContainerProxy) : M E string :=
  container_read container_client true ;;
  index_transformation_progress ← get_header progress_header;
  progress_report index_transformation_progress ;;
  ret index_transformation_progress.

(** [while (index_transformation_progress != '100'): ...]; the source has no
    bound, [fuel] counts the iterations this run may take. *)
Fixpoint wait_loop (fuel : nat) (container_client : ContainerProxy)
    (index_transformation_progress : string) : M E unit :=
  if String.eqb index_transformation_progress "100" then ret tt
  else
    match fuel with
    | O => out_of_fuel
    | S fuel' =>
        sleep 5 ;;
        index_transformation_progress' ← poll container_client;
        wait_loop fuel' container_client index_transformation_progress'
    end.

Definition wait_for_transformation (fuel : nat) (container_client : ContainerProxy)
  : M E unit :=
  index_transformation_progress ← poll container_client;
  wait_loop fuel container_client index_transformation_progress ;;
  print (nl +:+ "Index transformation completed").

Definition cell11 (fuel : nat) (database_client : DatabaseProxy)
    (container_client : ContainerProxy) : M E unit :=
  db_replace_container database_client container_client {| path := "/id" |}
    policy_exclude_field2 ;;
  print "Indexing policy updated" ;;
  wait_for_transformation fuel container_client.

(** *** Cell 17: clean up *)

Definition cell17 : M E unit := cosmos_delete_database db_name.

(** *** The cells in order *)

Definition notebook (fuel : nat) : M E unit :=
  database_client ← cell1;
  container_client ← cell3 database_client;
  cell5 container_client ;;
  cell7 database_client container_client ;;
  cell9 container_client ;;
  cell11 fuel database_client container_client ;;
  cell13 container_client ;;
  cell15 container_client ;;
  cell17.

End Notebook.

(** ** What the script relies on from the service

    The notebook owns no storage: what a container holds after a call is
    decided by the service.  The statements that need it are made relative
    to an abstraction [store] of the account (database name to container
    name to contents) and to the laws below, one per SDK call, each taken as
    an explicit hypothesis by the theorems that use it. *)

Record Container := { policy : IndexingPolicy; items : list json }.

(** The policy of a container created without [indexing_policy]. *)
Definition default_policy : IndexingPolicy :=
  {| indexingMode := consistent; includedPaths := ["/*"%string]; excludedPaths := [] |}.

Definition new_container : Container := {| policy := default_policy; items := [] |}.

Definition add_item (body : json) (c : Container) : Container :=
  {| policy := policy c; items := items c ++ [body] |}.

(** [c.field1 = "Mario86"] on one document. *)
Definition field_is_str (key value : string) (doc : json) : bool :=
  match field doc key with
  | Some (JStr s) => String.eqb s value
  | _ => false
  end.

(** [c.field2 = 3188] on one document. *)
Definition field_is_int (key : string) (value : Z) (doc : json) : bool :=
  match field doc key with
  | Some (JInt n) => n =? value
  | _ => false
  end.

Definition matching (p : json -> bool) (docs : list json) : list json :=
  List.filter p docs.

Section Laws.
Variable E : Env.
Variable store : World E -> gmap string (gmap string Container).

(** Creating a database that exists is the conflict error, and changes nothing. *)
Definition create_database_conflict : Prop :=
  forall w name cs, store w !! name = Some cs ->
    exists w', create_database E name w = (inl (CosmosHttpResponseError 409), w')
               /\ store w' = store w.

(** Listing the containers of an existing database yields exactly its containers. *)
Definition list_containers_exact : Prop :=
  forall w db cs, store w !! db = Some cs ->
    exists l w', list_containers E db w = (inr l, w')
                 /\ store w' = store w
                 /\ forall c, In c (map id l) <-> is_Some (cs !! c).

(** Deleting an existing container succeeds and removes it. *)
Definition delete_container_removes : Prop :=
  forall w db cs c, store w !! db = Some cs -> is_Some (cs !! c) ->
    exists w', delete_container E db c w = (inr tt, w')
               /\ store w' = <[db := delete c cs]> (store w).

(** Creating a container under a free name in an existing database succeeds. *)
Definition create_container_available : Prop :=
  forall w db cs c pk, store w !! db = Some cs -> cs !! c = None ->
    exists w', create_container E db c pk w = (inr tt, w').

(** A container that was created is there, empty, with the default policy. *)
Definition create_container_empty : Prop :=
  forall w db c pk w', create_container E db c pk w = (inr tt, w') ->
    exists cs, store w !! db = Some cs
               /\ store w' = <[db := <[c := new_container]> cs]> (store w).

(** An item that was created is added to its container, and nothing else changes. *)
Definition create_item_adds : Prop :=
  forall w db c body stored w', create_item E db c body w = (inr stored, w') ->
    exists cs cont, store w !! db = Some cs /\ cs !! c = Some cont
                    /\ store w' = <[db := <[c := add_item body cont]> cs]> (store w).

(** Fetching the data file does not touch the account. *)
Definition urlopen_pure : Prop :=
  forall w url r w', urlopen_read E url w = (r, w') -> store w' = store w.

End Laws.

(** ** An in-memory account

    A small executable environment: an account held in a map, a data file,
    a counter for a clock.  It is what the theorems are run against on
    concrete inputs. *)
Module Sim.

Record account := {
  dbs : gmap string (gmap string Container);
  headers : gmap string string;
  (* progress values the next reads will report, then [steady] for ever *)
  pending : list string;
  steady : string;
  blob : string }.

Definition with_dbs (w : account) (d : gmap string (gmap string Container)) : account :=
  {| dbs := d; headers := headers w; pending := pending w; steady := steady w;
     blob := blob w |}.

Definition with_header (w : account) (k v : string) : account :=
  {| dbs := dbs w; headers := <[k := v]> (headers w); pending := pending w;
     steady := steady w; blob := blob w |}.

Definition not_found {X} (w : account) : (exn + X) * account :=
  (inl (CosmosHttpResponseError 404), w).

Definition create_database (name : string) (w : account) : (exn + unit) * account :=
  match dbs w !! name with
  | Some _ => (inl (CosmosHttpResponseError 409), w)
  | None => (inr tt, with_dbs w (<[name := ∅]> (dbs w)))
  end.

Definition delete_database (name : string) (w : account) : (exn + unit) * account :=
  match dbs w !! name with
  | Some _ => (inr tt, with_dbs w (delete name (dbs w)))
  | None => not_found w
  end.

Definition list_containers (db : string) (w : account)
  : (exn + list ContainerProperties) * account :=
  match dbs w !! db with
  | Some cs => (inr (map (fun kv => {| id := fst kv |}) (map_to_list cs)), w)
  | None => not_found w
  end.

Definition delete_container (db c : string) (w : account) : (exn + unit) * account :=
  match dbs w !! db with
  | Some cs =>
      match cs !! c with
      | Some _ => (inr tt, with_dbs w (<[db := delete c cs]> (dbs w)))
      | None => not_found w
      end
  | None => not_found w
  end.

Definition create_container (db c : string) (pk : PartitionKey) (w : account)
  : (exn + unit) * account :=
  match dbs w !! db with
  | Some cs =>
      match cs !! c with
      | Some _ => (inl (CosmosHttpResponseError 409), w)
      | None => (inr tt, with_dbs w (<[db := <[c := new_container]> cs]> (dbs w)))
      end
  | None => not_found w
  end.

Definition create_item (db c : string) (body : json) (w : account) : (exn + json) * account :=
  match dbs w !! db with
  | Some cs =>
      match cs !! c with
      | Some cont =>
          (inr body,
           with_header (with_dbs w (<[db := <[c := add_item body cont]> cs]> (dbs w)))
             charge_header "7.43")
      | None => not_found w
      end
  | None => not_found w
  end.

Definition charge_of (p : IndexingPolicy) : string :=
  match indexingMode p with
  | consistent => "2.83"
  | none => "340.13"
  end.

Definition query_items (db c query : string) (cross : bool) (w : account)
  : (exn + list json) * account :=
  match dbs w !! db with
  | Some cs =>
      match cs !! c with
      | Some cont =>
          if String.eqb query query_field1 then
            (inr (matching (field_is_str "field1" "Mario86") (items cont)),
             with_header w charge_header (charge_of (policy cont)))
          else if String.eqb query query_field2 then
            (inr (matching (field_is_int "field2" 3188) (items cont)),
             with_header w charge_header (charge_of (policy cont)))
          else (inl (CosmosHttpResponseError 400), w)
      | None => not_found w
      end
  | None => not_found w
  end.

Definition replace_container (db c : string) (pk : PartitionKey) (p : IndexingPolicy)
    (w : account) : (exn + unit) * account :=
  match dbs w !! db with
  | Some cs =>
      match cs !! c with
      | Some cont =>
          (inr tt,
           with_dbs w (<[db := <[c := {| policy := p; items := items cont |}]> cs]> (dbs w)))
      | None => not_found w
      end
  | None => not_found w
  end.

Definition read_container (db c : string) (quota : bool) (w : account)
  : (exn + unit) * account :=
  match pending w with
  | v :: rest =>
      (inr tt,
       {| dbs := dbs w; headers := <[progress_header := v]> (headers w);
          pending := rest; steady := steady w; blob := blob w |})
  | [] => (inr tt, with_header w progress_header (steady w))
  end.

Definition urlopen_read (url : string) (w : account) : (exn + string) * account :=
  (inr (blob w), w).

Definition doc (f1 : string) (f2 : Z) : json :=
  JObj [("field1"%string, JStr f1); ("field2"%string, JInt f2)].

Definition sample : list json :=
  [doc "Garry75" 405; doc "Mario86" 3188; doc "Luigi12" 7; doc "Mario86" 12].

Definition json_loads (text : string) : exn + json :=
  if String.eqb text "sample" then inr (JArr sample)
  else inl (OtherError "JSONDecodeError").

Definition env : Env :=
  Build_Env account Z Z
    (fun c => (c, c + 3))
    (fun secs c => c + 1000 * secs)
    (fun start end_ => pretty (end_ - start))
    urlopen_read json_loads
    create_database list_containers delete_container create_container
    create_item query_items replace_container read_container delete_database
    headers.

(** A new account: no database, the data file in place, and a
    transformation that will report 30, 70 and then 100. *)
Definition fresh : account :=
  {| dbs := ∅; headers := ∅; pending := ["30"; "70"; "100"]%string;
     steady := "100"; blob := "sample" |}.

(** An account with the container in place whose transformation stays at 50. *)
Definition stuck : account :=
  {| dbs := {[ db_name := {[ container_name := new_container ]} ]};
     headers := ∅; pending := []; steady := "50"; blob := "sample" |}.

(** The new account once cell 1 has run on it. *)
Definition ready : account :=
  with_dbs fresh {[ db_name := {[ container_name := new_container ]} ]}.

(** The same with the sample loaded. *)
Definition loaded : account :=
  with_dbs fresh
    {[ db_name := {[ container_name := {| policy := default_policy; items := sample |} ]} ]}.

(** [ready] and [stuck] once cell 11 has replaced the policy. *)
Definition reindexing (w : account) : account :=
  snd (replace_container db_name container_name {| path := "/id" |}
         policy_exclude_field2 w).

Definition start (w : account) : state env := Build_state (E := env) w 0.

Definition the_database : DatabaseProxy := get_database_client db_name.
Definition the_container : ContainerProxy := get_container_client the_database container_name.

(** The new account with a data file that is not JSON. *)
Definition garbled : account :=
  {| dbs := ∅; headers := ∅; pending := []; steady := "100"; blob := "<html>" |}.

(** The same environment with a client that keeps no response headers. *)
Definition env_without_headers : Env :=
  Build_Env account Z Z
    (fun c => (c, c + 3))
    (fun secs c => c + 1000 * secs)
    (fun start end_ => pretty (end_ - start))
    urlopen_read json_loads
    create_database list_containers delete_container create_container
    create_item query_items replace_container read_container delete_database
    (fun _ => ∅).

End Sim.

(** ** Reading a trace *)

(** The bodies of the [create_item] calls of a trace, in order. *)
Fixpoint attempted (evs : list event) : list json :=
  match evs with
  | [] => []
  | EvCall (CreateItem _ _ body) :: rest => body :: attempted rest
  | _ :: rest => attempted rest
  end.

(** The bodies of the [create_item] calls that returned. *)
Fixpoint created (evs : list event) : list json :=
  match evs with
  | [] => []
  | EvCall (CreateItem _ _ body) :: rest =>
      match rest with
      | EvRaised _ :: _ => created rest
      | _ => body :: created rest
      end
  | _ :: rest => created rest
  end.

Definition is_raised (ev : event) : bool :=
  match ev with
  | EvRaised _ => true
  | _ => false
  end.

(** No exception was raised anywhere in the trace. *)
Definition quiet (evs : list event) : Prop := Forall (fun ev => is_raised ev = false) evs.

(** The events of one poll that reported [v]. *)
Definition poll_events (c : ContainerProxy) (v : string) : list event :=
  [EvCall (ReadContainer (of_database c) (container_id c) true);
   EvPrint ((cr +:+ "Current index transformation progress: " +:+ v +:+ "%") +:+ "")].

(** The events of the polls that reported [vs], five seconds of sleep
    before each but the first. *)
Fixpoint later_polls (c : ContainerProxy) (vs : list string) : list event :=
  match vs with
  | [] => []
  | v :: rest => EvSleep 5 :: poll_events c v ++ later_polls c rest
  end.

Definition polling_events (c : ContainerProxy) (vs : list string) : list event :=
  match vs with
  | [] => []
  | v :: rest => poll_events c v ++ later_polls c rest
  end.

Definition transformation_completed : list event :=
  [EvPrint ((nl +:+ "Index transformation completed") +:+ nl)].

Section Observations.
Context {E : Env}.

(** What one poll observes in a given world: the progress header after a
    [read] that returned, nothing if the read raised or the header is absent. *)
Definition observe (c : ContainerProxy) (w : World E) : option string * World E :=
  let '(res, w') := read_container E (of_database c) (container_id c) true w in
  match res with
  | inr _ => (last_response_headers E w' !! progress_header, w')
  | inl _ => (None, w')
  end.

(** The values the next [n] polls observe, and the world after them. *)
Fixpoint observations (c : ContainerProxy) (n : nat) (w : World E)
  : option (list string * World E) :=
  match n with
  | O => Some ([], w)
  | S n' =>
      match observe c w with
      | (Some v, w1) =>
          match observations c n' w1 with
          | Some (vs, w') => Some (v :: vs, w')
          | None => None
          end
      | (None, _) => None
      end
  end.

End Observations.

Arguments observe : simpl never.
Arguments observations : simpl never.

(** A run in which every exception raised went up: it raised nothing, or
    it ended with the exception it raised last. *)
Definition propagates {E A} (r : Run E A) : Prop :=
  match result r with
  | Raise e => exists pre, events r = pre ++ [EvRaised e] /\ quiet pre
  | _ => quiet (events r)
  end.

Definition propagating {E A} (m : M E A) : Prop := forall st, propagates (m st).

Definition starts_with {E A} (ev : event) (r : Run E A) : Prop :=
  exists rest, events r = ev :: rest.

(** The whole trace of a query cell. *)
Definition query_cell_events (c : ContainerProxy) (query : string) (count : nat)
    (elapsed charge : string) : list event :=
  [EvTime;
   EvCall (QueryItems (of_database c) (container_id c) query true);
   EvTime;
   EvPrint (("Got " +:+ pretty count +:+ " result(s)") +:+ nl);
   EvPrint (("Time elapsed: " +:+ elapsed +:+ " ms") +:+ nl);
   EvPrint (("Request charge: " +:+ charge +:+ " RUs") +:+ nl)].

(** The trace of the container reset, by whether the name was listed. *)
Definition reset_events (listed : bool) : list event :=
  EvCall (ListContainers db_name)
  :: (if listed
      then [EvCall (DeleteContainer db_name container_name);
            EvPrint ("Container dropped" +:+ nl)]
      else [])
  ++ [EvCall (CreateContainer db_name container_name {| path := "/id" |});
      EvPrint ("Container created" +:+ nl)].

Definition listed (l : list ContainerProperties) : bool :=
  existsb (fun container => String.eqb (id container) container_name) l.

(** The trace of a load of [docs] in which every insertion returns: for
    each record, the progress line when its position is a multiple of ten,
    then its [create_item]. *)
Fixpoint load_events (c : ContainerProxy) (docs : list json) (progress : Z) : list event :=
  match docs with
  | [] => []
  | doc :: rest =>
      (if progress mod 10 =? 0
       then [EvPrint (("Inserting document: " +:+ fmt_5d progress +:+ " / 10000" +:+ cr)
                      +:+ "")]
       else [])
      ++ EvCall (CreateItem (of_database c) (container_id c) doc)
         :: load_events c rest (progress + 1)
  end.

(** ** Counting in a trace *)

Definition is_print (ev : event) : bool :=
  match ev with
  | EvPrint _ => true
  | _ => false
  end.

Definition is_sleep (ev : event) : bool :=
  match ev with
  | EvSleep _ => true
  | _ => false
  end.

Definition is_time (ev : event) : bool :=
  match ev with
  | EvTime => true
  | _ => false
  end.

Definition is_read (ev : event) : bool :=
  match ev with
  | EvCall (ReadContainer _ _ _) => true
  | _ => false
  end.

Definition count (p : event -> bool) (evs : list event) : nat :=
  length (List.filter p evs).

(** The calls of a trace, in order. *)
Fixpoint calls (evs : list event) : list api :=
  match evs with
  | [] => []
  | EvCall c :: rest => c :: calls rest
  | _ :: rest => calls rest
  end.

(** A condition on the calls of a trace; the other events pass. *)
Definition on_calls (q : api -> bool) (ev : event) : bool :=
  match ev with
  | EvCall c => q c
  | _ => true
  end.

(** Every event of every run of [m] passes [p]. *)
Definition keeps {E A} (p : event -> bool) (m : M E A) : Prop :=
  forall st, Forall (fun ev => p ev = true) (events (m st)).

Definition not_delete_database (c : api) : bool :=
  match c with
  | DeleteDatabase _ => false
  | _ => true
  end.

Definition not_create_item (c : api) : bool :=
  match c with
  | CreateItem _ _ _ => false
  | _ => true
  end.

Definition not_query_items (c : api) : bool :=
  match c with
  | QueryItems _ _ _ _ => false
  | _ => true
  end.

(** A sleep, if it is one, of five seconds. *)
Definition sleeps_five (ev : event) : Prop := forall secs, ev = EvSleep secs -> secs = 5.

(** A run that calls [delete_database] last or not at all: [before] is
    what cells 1 to 15 did. *)
Definition teardown_last {E} (r : Run E unit) : Prop :=
  exists before,
    Forall (fun ev => on_calls not_delete_database ev = true) before
    /\ ((result r = Ok tt /\ events r = before ++ [EvCall (DeleteDatabase db_name)])
        \/ (exists e, result r = Raise e
                      /\ events r = before ++ [EvCall (DeleteDatabase db_name); EvRaised e])
        \/ (result r <> Ok tt /\ events r = before)).

(** The last line of cell 11. *)
Definition completed_line : event :=
  EvPrint ((nl +:+ "Index transformation completed") +:+ nl).

(** The calls of a run of the whole notebook that completes: [dropped]
    says whether the container was listed, [inserted] are the values
    iterated by the load, [polls] the number of reads of cell 11. *)
Definition protocol (dropped : bool) (inserted : list json) (polls : nat) : list api :=
  [CreateDatabase db_name; ListContainers db_name]
  ++ (if dropped then [DeleteContainer db_name container_name] else [])
  ++ [CreateContainer db_name container_name {| path := "/id" |}; UrlOpen data_url]
  ++ map (CreateItem db_name container_name) inserted
  ++ [QueryItems db_name container_name query_field1 true;
      ReplaceContainer db_name container_name {| path := "/id" |} policy_none;
      QueryItems db_name container_name query_field1 true;
      ReplaceContainer db_name container_name {| path := "/id" |} policy_exclude_field2]
  ++ repeat (ReadContainer db_name container_name true) polls
  ++ [QueryItems db_name container_name query_field1 true;
      QueryItems db_name container_name query_field2 true;
      DeleteDatabase db_name].

(** * Properties *)

(** ** Running the monad *)

Section Running.
Context {E : Env}.

Lemma run_bind {A B} (m : M E A) (k : A -> M E B) (st : state E) :
  (m ≫= k) st =
  match result (m st) with
  | Ok a =>
      {| events := events (m st) ++ events (k a (final (m st)));
         final := final (k a (final (m st)));
         result := result (k a (final (m st))) |}
  | Raise e => {| events := events (m st); final := final (m st); result := Raise e |}
  | OutOfFuel => {| events := events (m st); final := final (m st); result := OutOfFuel |}
  end.
Proof. reflexivity. Qed.

Lemma run_bind_ok {A B} (m : M E A) (k : A -> M E B) (st : state E) (a : A) :
  result (m st) = Ok a ->
  (m ≫= k) st =
  {| events := events (m st) ++ events (k a (final (m st)));
     final := final (k a (final (m st)));
     result := result (k a (final (m st))) |}.
Proof. intros H. rewrite run_bind, H. reflexivity. Qed.

Lemma run_bind_raise {A B} (m : M E A) (k : A -> M E B) (st : state E) (e : exn) :
  result (m st) = Raise e ->
  (m ≫= k) st = {| events := events (m st); final := final (m st); result := Raise e |}.
Proof. intros H. rewrite run_bind, H. reflexivity. Qed.

Lemma run_call_ok {X} (c : api) (op : World E -> (exn + X) * World E) st x w :
  op (world st) = (inr x, w) ->
  call c op st =
  {| events := [EvCall c]; final := {| world := w; clock := clock st |}; result := Ok x |}.
Proof. intros H. unfold call. rewrite H. reflexivity. Qed.

Lemma run_call_raise {X} (c : api) (op : World E -> (exn + X) * World E) st e w :
  op (world st) = (inl e, w) ->
  call c op st =
  {| events := [EvCall c; EvRaised e];
     final := {| world := w; clock := clock st |};
     result := Raise e |}.
Proof. intros H. unfold call. rewrite H. reflexivity. Qed.

Lemma bind_assoc {A B C} (m : M E A) (k : A -> M E B) (k' : B -> M E C) st :
  ((m ≫= k) ≫= k') st = (m ≫= (fun a => k a ≫= k')) st.
Proof.
  rewrite (run_bind (m ≫= k)), (run_bind m k), (run_bind m).
  destruct (result (m st)) as [a| |]; simpl; try reflexivity.
  rewrite (run_bind (k a)).
  destruct (result (k a (final (m st)))); simpl; try reflexivity.
  now rewrite app_assoc.
Qed.

End Running.

(** ** The bulk load *)

Section BulkLoad.
Context {E : Env}.

(** The progress line of one iteration: at most one print, no call. *)
Lemma progress_line_run (progress : Z) (st : state E) :
  exists evs,
    (if progress mod 10 =? 0 then progress_line progress else ret tt) st
    = {| events := evs; final := st; result := Ok tt |}
    /\ (evs = [] \/ exists s, evs = [EvPrint s]).
Proof.
  destruct (progress mod 10 =? 0).
  - eexists. split; [reflexivity|]. right. eexists. reflexivity.
  - exists []. split; [reflexivity|]. now left.
Qed.

(** The trace of the loop never begins with a raise: it begins with the
    progress line or with a call. *)
Lemma insert_docs_head (c : ContainerProxy) docs progress (st : state E) :
  match events (insert_docs c docs progress st) with
  | EvRaised _ :: _ => False
  | _ => True
  end.
Proof.
  destruct docs as [|doc rest]; simpl; [exact I|].
  destruct (progress_line_run progress st) as (evs & Hrun & Hevs).
  rewrite run_bind, Hrun. simpl.
  destruct Hevs as [->|[s ->]]; simpl; [|exact I].
  rewrite run_bind. unfold container_create_item, call.
  destruct (create_item E _ _ doc (world st)) as [[e|x] w]; simpl; exact I.
Qed.

Lemma created_call_cons db c body rest :
  match rest with EvRaised _ :: _ => False | _ => True end ->
  created (EvCall (CreateItem db c body) :: rest) = body :: created rest.
Proof. destruct rest as [|[] ?]; simpl; tauto. Qed.

Lemma load_events_head (c : ContainerProxy) docs progress :
  match load_events c docs progress with
  | EvRaised _ :: _ => False
  | _ => True
  end.
Proof.
  destruct docs as [|doc rest]; simpl; [exact I|].
  destruct (progress mod 10 =? 0); exact I.
Qed.

(** The whole trace of the loop: the insertions that returned, in order,
    each after its progress line if it has one, and then, if one raised,
    that call and the raise. *)
Lemma insert_docs_trace (c : ContainerProxy) docs :
  forall progress (st : state E),
    let r := insert_docs c docs progress st in
    match result r with
    | Ok _ =>
        events r = load_events c docs progress
        /\ attempted (events r) = docs
        /\ created (events r) = docs
    | Raise e =>
        exists done failed rest,
          docs = done ++ failed :: rest
          /\ events r = load_events c (done ++ [failed]) progress ++ [EvRaised e]
          /\ attempted (events r) = done ++ [failed]
          /\ created (events r) = done
    | OutOfFuel => False
    end.
Proof.
  induction docs as [|doc rest IH]; intros progress st; simpl.
  - repeat split; reflexivity.
  - set (line := if progress mod 10 =? 0
                 then [EvPrint (("Inserting document: " +:+ fmt_5d progress
                                 +:+ " / 10000" +:+ cr) +:+ "")]
                 else []).
    assert (Hrun : (if progress mod 10 =? 0 then progress_line progress else ret tt) st
                   = {| events := line; final := st; result := Ok tt |}).
    { unfold line. destruct (progress mod 10 =? 0); reflexivity. }
    assert (Happ : forall l, attempted (line ++ l) = attempted l
                             /\ created (line ++ l) = created l).
    { unfold line. destruct (progress mod 10 =? 0); simpl; auto. }
    rewrite run_bind, Hrun. simpl.
    rewrite run_bind. unfold container_create_item.
    destruct (create_item E (of_database c) (container_id c) doc (world st)) as [[e|x] w] eqn:Hc;
      [rewrite (run_call_raise _ _ _ _ _ Hc)|rewrite (run_call_ok _ _ _ _ _ Hc)]; simpl.
    + exists [], doc, rest. simpl.
      destruct (Happ [EvCall (CreateItem (of_database c) (container_id c) doc); EvRaised e])
        as [-> ->]. simpl. rewrite <- app_assoc. auto.
    + specialize (IH (progress + 1) {| world := w; clock := clock st |}).
      pose proof (insert_docs_head c rest (progress + 1) {| world := w; clock := clock st |})
        as Hhead.
      simpl in IH.
      set (r := insert_docs c rest (progress + 1) {| world := w; clock := clock st |}) in *.
      destruct (Happ (EvCall (CreateItem (of_database c) (container_id c) doc) :: events r))
        as [Ha Hcr].
      rewrite Ha, Hcr. simpl attempted. rewrite created_call_cons by exact Hhead.
      destruct (result r) as [n|e|].
      * destruct IH as (-> & -> & ->). auto.
      * destruct IH as (done & failed & rest' & -> & Hev & -> & ->).
        exists (doc :: done), failed, rest'.
        rewrite Hev. simpl. rewrite <- !app_assoc. auto.
      * exact IH.
Qed.

End BulkLoad.

(** ** The polling loop of cell 11 *)

Section Polling.
Context {E : Env}.

Lemma poll_observes (c : ContainerProxy) (st : state E) v w' :
  observe c (world st) = (Some v, w') ->
  poll c st = {| events := poll_events c v;
                 final := {| world := w'; clock := clock st |};
                 result := Ok v |}.
Proof.
  unfold observe, poll. intros H. rewrite run_bind. unfold container_read.
  destruct (read_container E (of_database c) (container_id c) true (world st))
    as [[e|[]] w] eqn:Hr; [discriminate|].
  rewrite (run_call_ok _ _ _ _ _ Hr). simpl.
  injection H as Hv <-.
  rewrite run_bind. unfold get_header. simpl. rewrite Hv. reflexivity.
Qed.

Lemma poll_ok_inv (c : ContainerProxy) (st : state E) v :
  result (poll c st) = Ok v ->
  observe c (world st) = (Some v, world (final (poll c st)))
  /\ events (poll c st) = poll_events c v.
Proof.
  unfold observe, poll. rewrite run_bind. unfold container_read.
  destruct (read_container E (of_database c) (container_id c) true (world st))
    as [[e|[]] w] eqn:Hr.
  - rewrite (run_call_raise _ _ _ _ _ Hr). simpl. discriminate.
  - rewrite (run_call_ok _ _ _ _ _ Hr). simpl.
    rewrite run_bind. unfold get_header. simpl.
    destruct (last_response_headers E w !! progress_header) as [v'|]; simpl.
    + intros [= ->]. auto.
    + discriminate.
Qed.

Lemma wait_loop_done fuel (c : ContainerProxy) (st : state E) :
  wait_loop fuel c "100" st = ret tt st.
Proof. destruct fuel; reflexivity. Qed.

Lemma wait_loop_step fuel (c : ContainerProxy) p (st : state E) :
  p <> "100"%string ->
  wait_loop (S fuel) c p st =
  (sleep 5 ;; p' ← poll c; wait_loop fuel c p') st.
Proof.
  intros Hp. simpl. destruct (String.eqb p "100") eqn:Heq; [|reflexivity].
  apply String.eqb_eq in Heq. contradiction.
Qed.

Lemma observations_O (c : ContainerProxy) (w : World E) :
  observations c O w = Some ([], w).
Proof. reflexivity. Qed.

Lemma observations_S (c : ContainerProxy) n (w : World E) :
  observations c (S n) w =
  match observe c w with
  | (Some v, w1) =>
      match observations c n w1 with
      | Some (vs, w') => Some (v :: vs, w')
      | None => None
      end
  | (None, _) => None
  end.
Proof. reflexivity. Qed.

(** The loop leaves at the first 100 when the fuel reaches that far. *)
Lemma wait_loop_exits (c : ContainerProxy) pre :
  forall fuel p (st : state E) w',
    Forall (fun v => v <> "100"%string) (p :: pre) ->
    observations c (S (length pre)) (world st) = Some (pre ++ ["100"%string], w') ->
    (length pre < fuel)%nat ->
    let r := wait_loop fuel c p st in
    result r = Ok tt
    /\ events r = later_polls c (pre ++ ["100"%string])
    /\ world (final r) = w'.
Proof.
  induction pre as [|q pre IH]; intros fuel p st w' Hall Hobs Hfuel;
    (destruct fuel as [|fuel]; [simpl in Hfuel; lia|]);
    inversion Hall as [|? ? Hp Hall']; subst;
    rewrite wait_loop_step by assumption;
    rewrite observations_S in Hobs;
    destruct (observe c (world st)) as [[v|] w1] eqn:Ho; try discriminate;
    destruct (observations c _ w1) as [[vs w2]|] eqn:Hrest; try discriminate;
    injection Hobs as Hv Hvs Hw; subst v w2;
    rewrite run_bind; simpl result; cbv iota; simpl final;
    rewrite run_bind;
    rewrite (poll_observes c {| world := world st; clock := time_sleep E 5 (clock st) |}
               _ _ Ho); simpl.
  - rewrite observations_O in Hrest. injection Hrest as <- <-.
    rewrite wait_loop_done. simpl. auto.
  - subst vs.
    destruct (IH fuel q {| world := w1; clock := time_sleep E 5 (clock st) |} w')
      as (Hres & Hev & Hw).
    + exact Hall'.
    + exact Hrest.
    + simpl in Hfuel. lia.
    + rewrite Hres, Hev, Hw. auto.
Qed.

(** The loop is still running when the fuel is spent and no 100 was seen. *)
Lemma wait_loop_spins (c : ContainerProxy) fuel :
  forall p (st : state E) vs w',
    Forall (fun v => v <> "100"%string) (p :: vs) ->
    observations c fuel (world st) = Some (vs, w') ->
    result (wait_loop fuel c p st) = OutOfFuel.
Proof.
  induction fuel as [|fuel IH]; intros p st vs w' Hall Hobs;
    inversion Hall as [|? ? Hp Hall']; subst.
  - simpl. destruct (String.eqb p "100") eqn:Heq; [|reflexivity].
    apply String.eqb_eq in Heq. contradiction.
  - rewrite wait_loop_step by assumption.
    rewrite observations_S in Hobs.
    destruct (observe c (world st)) as [[v|] w1] eqn:Ho; try discriminate.
    destruct (observations c fuel w1) as [[vs' w2]|] eqn:Hrest; try discriminate.
    injection Hobs as <- <-.
    rewrite run_bind; simpl result; cbv iota; simpl final.
    rewrite run_bind.
    rewrite (poll_observes c {| world := world st; clock := time_sleep E 5 (clock st) |}
               _ _ Ho).
    simpl.
    apply (IH v {| world := w1; clock := time_sleep E 5 (clock st) |} vs' w2).
    + exact Hall'.
    + exact Hrest.
Qed.

(** A loop that left has seen non-100 values and then 100. *)
Lemma wait_loop_ok_inv (c : ContainerProxy) fuel :
  forall p (st : state E),
    let r := wait_loop fuel c p st in
    result r = Ok tt ->
    exists vs pre,
      p :: vs = pre ++ ["100"%string]
      /\ Forall (fun v => v <> "100"%string) pre
      /\ (length vs <= fuel)%nat
      /\ observations c (length vs) (world st) = Some (vs, world (final r))
      /\ events r = later_polls c vs.
Proof.
  induction fuel as [|fuel IH]; intros p st r; subst r.
  - simpl. destruct (String.eqb p "100") eqn:Heq; [|discriminate].
    apply String.eqb_eq in Heq. subst p. intros _.
    exists [], []. simpl. auto.
  - destruct (String.eqb p "100") eqn:Heq.
    + apply String.eqb_eq in Heq. subst p. rewrite wait_loop_done. intros _.
      exists [], []. simpl. repeat split; auto; lia.
    + apply String.eqb_neq in Heq. rewrite wait_loop_step by assumption.
      rewrite run_bind; simpl result; cbv iota; simpl final.
      rewrite run_bind.
      set (st1 := {| world := world st; clock := time_sleep E 5 (clock st) |}).
      destruct (result (poll c st1)) as [v| |] eqn:Hpoll; simpl; try discriminate.
      destruct (poll_ok_inv c st1 v Hpoll) as [Ho Hev].
      intros Hres.
      destruct (IH v (final (poll c st1)) Hres) as (vs & pre & Hsplit & Hall & Hlen & Hobs & Hevs).
      exists (v :: vs), (p :: pre). simpl. rewrite <- Hsplit.
      split; [reflexivity|]. split; [constructor; assumption|].
      split; [lia|]. split.
      * rewrite observations_S. simpl in Ho. rewrite Ho, Hobs. reflexivity.
      * rewrite Hev, Hevs. reflexivity.
Qed.

Lemma wait_for_transformation_ok_inv fuel (c : ContainerProxy) (st : state E) :
  let r := wait_for_transformation fuel c st in
  result r = Ok tt ->
  exists pre,
    Forall (fun v => v <> "100"%string) pre
    /\ (length pre <= fuel)%nat
    /\ observations c (S (length pre)) (world st) = Some (pre ++ ["100"%string], world (final r))
    /\ events r = polling_events c (pre ++ ["100"%string]) ++ transformation_completed.
Proof.
  unfold wait_for_transformation. rewrite run_bind.
  destruct (result (poll c st)) as [v| |] eqn:Hpoll; simpl; try discriminate.
  destruct (poll_ok_inv c st v Hpoll) as [Ho Hev].
  rewrite run_bind.
  destruct (result (wait_loop fuel c v (final (poll c st)))) as [[]| |] eqn:Hloop;
    simpl; try discriminate.
  intros _.
  destruct (wait_loop_ok_inv c fuel v (final (poll c st)) Hloop)
    as (vs & pre & Hsplit & Hall & Hlen & Hobs & Hevs).
  assert (Hpre : length pre = length vs).
  { apply (f_equal (@length string)) in Hsplit. rewrite length_app in Hsplit.
    simpl in Hsplit. lia. }
  exists pre. split; [exact Hall|]. split; [lia|]. split.
  - rewrite Hpre, observations_S, Ho, Hobs, <- Hsplit. reflexivity.
  - rewrite <- Hsplit, Hev, Hevs. reflexivity.
Qed.

Lemma wait_for_transformation_exits fuel (c : ContainerProxy) (st : state E) pre w' :
  Forall (fun v => v <> "100"%string) pre ->
  observations c (S (length pre)) (world st) = Some (pre ++ ["100"%string], w') ->
  (length pre <= fuel)%nat ->
  let r := wait_for_transformation fuel c st in
  result r = Ok tt
  /\ events r = polling_events c (pre ++ ["100"%string]) ++ transformation_completed
  /\ world (final r) = w'.
Proof.
  intros Hall Hobs Hfuel. unfold wait_for_transformation.
  rewrite observations_S in Hobs.
  destruct (observe c (world st)) as [[v|] w1] eqn:Ho; try discriminate.
  destruct (observations c (length pre) w1) as [[vs w2]|] eqn:Hrest; try discriminate.
  injection Hobs as Hvs Hw. subst w2.
  rewrite run_bind, (poll_observes c st v w1 Ho). simpl.
  rewrite run_bind.
  destruct pre as [|p pre].
  - simpl in Hvs. injection Hvs as -> ->.
    rewrite observations_O in Hrest. injection Hrest as <-.
    rewrite wait_loop_done. simpl. auto.
  - simpl in Hvs. injection Hvs as -> ->.
    destruct (wait_loop_exits c pre fuel p {| world := w1; clock := clock st |} w')
      as (Hres & Hev & Hw); [exact Hall|exact Hrest|simpl in Hfuel; lia|].
    rewrite Hres, Hev. simpl. rewrite <- ?app_assoc. auto.
Qed.

Lemma wait_for_transformation_spins fuel (c : ContainerProxy) (st : state E) vs w' :
  Forall (fun v => v <> "100"%string) vs ->
  observations c (S fuel) (world st) = Some (vs, w') ->
  result (wait_for_transformation fuel c st) = OutOfFuel.
Proof.
  intros Hall Hobs. unfold wait_for_transformation.
  rewrite observations_S in Hobs.
  destruct (observe c (world st)) as [[v|] w1] eqn:Ho; try discriminate.
  destruct (observations c fuel w1) as [[vs' w2]|] eqn:Hrest; try discriminate.
  injection Hobs as <- <-.
  rewrite run_bind, (poll_observes c st v w1 Ho). simpl.
  rewrite run_bind.
  rewrite (wait_loop_spins c fuel v {| world := w1; clock := clock st |} vs' w2 Hall Hrest).
  reflexivity.
Qed.

(** C4. After the second policy update, cell 11 polls: it reads the
    container and takes the progress header, and before every poll but the
    first it sleeps five seconds.  It leaves the loop exactly at the first
    poll that reports the string 100: a run that completes has seen values
    other than 100 followed by one 100 and made no further poll, and when
    the polls report such a sequence the run completes as soon as the
    iterations allowed reach it.  There is no other way out: as long as the
    polls report values other than 100 the loop is still running when the
    allowed iterations are spent, however many they are. *)
Theorem polling_loop_leaves_exactly_at_100
    fuel (database_client : DatabaseProxy) (c : ContainerProxy) (st : state E) w1 :
  replace_container E (database_id database_client) (container_id c) {| path := "/id" |}
    policy_exclude_field2 (world st) = (inr tt, w1) ->
  let r := cell11 fuel database_client c st in
  let updated :=
    [EvCall (ReplaceContainer (database_id database_client) (container_id c)
               {| path := "/id" |} policy_exclude_field2);
     EvPrint ("Indexing policy updated" +:+ nl)] in
  (result r = Ok tt ->
   exists pre,
     Forall (fun v => v <> "100"%string) pre
     /\ (length pre <= fuel)%nat
     /\ observations c (S (length pre)) w1 = Some (pre ++ ["100"%string], world (final r))
     /\ events r =
        updated ++ polling_events c (pre ++ ["100"%string]) ++ transformation_completed)
  /\ (forall pre w',
        Forall (fun v => v <> "100"%string) pre ->
        observations c (S (length pre)) w1 = Some (pre ++ ["100"%string], w') ->
        (length pre <= fuel)%nat ->
        result r = Ok tt
        /\ events r =
           updated ++ polling_events c (pre ++ ["100"%string]) ++ transformation_completed
        /\ world (final r) = w')
  /\ (forall vs w',
        Forall (fun v => v <> "100"%string) vs ->
        observations c (S fuel) w1 = Some (vs, w') ->
        result r = OutOfFuel).
Proof.
  intros Hrep. unfold cell11.
  rewrite run_bind. unfold db_replace_container.
  rewrite (run_call_ok _ _ _ _ _ Hrep). cbn [result events final].
  rewrite run_bind. cbn [result events final print print_end app].
  set (st1 := {| world := w1; clock := clock st |}).
  split; [|split].
  - intros Hres.
    destruct (wait_for_transformation_ok_inv fuel c st1 Hres)
      as (pre & Hall & Hlen & Hobs & Hev).
    exists pre. rewrite Hev. auto.
  - intros pre w' Hall Hobs Hlen.
    destruct (wait_for_transformation_exits fuel c st1 pre w' Hall Hobs Hlen)
      as (Hres & Hev & Hw).
    rewrite Hres, Hev, Hw. auto.
  - intros vs w' Hall Hobs.
    apply (wait_for_transformation_spins fuel c st1 vs w' Hall Hobs).
Qed.

End Polling.

(** ** Query and measure *)

Section QueryAndMeasure.
Context {E : Env}.

Lemma query_cell_run query (c : ContainerProxy) (st : state E)
    t0 c1 results w1 t1 c2 charge :
  time_time E (clock st) = (t0, c1) ->
  query_items E (of_database c) (container_id c) query true (world st) = (inr results, w1) ->
  time_time E c1 = (t1, c2) ->
  last_response_headers E w1 !! charge_header = Some charge ->
  query_cell query c st =
  {| events := query_cell_events c query (length results) (fmt_ms E t0 t1) charge;
     final := {| world := w1; clock := c2 |};
     result := Ok results |}.
Proof.
  intros Ht0 Hq Ht1 Hh. unfold query_cell.
  assert (Hstart : time st = {| events := [EvTime];
                                final := {| world := world st; clock := c1 |};
                                result := Ok t0 |}).
  { unfold time. rewrite Ht0. reflexivity. }
  rewrite run_bind, Hstart. cbn [result events final].
  unfold container_query_items.
  rewrite run_bind, (run_call_ok _ _ {| world := world st; clock := c1 |} results w1 Hq).
  cbn [result events final clock].
  assert (Hend : time {| world := w1; clock := c1 |}
                 = {| events := [EvTime];
                      final := {| world := w1; clock := c2 |};
                      result := Ok t1 |}).
  { unfold time. cbn [clock world]. rewrite Ht1. reflexivity. }
  rewrite run_bind, Hend. cbn [result events final].
  rewrite run_bind. cbn [result events final print print_end].
  rewrite run_bind. cbn [result events final print print_end].
  assert (Hcharge : get_header charge_header {| world := w1; clock := c2 |}
                    = {| events := []; final := {| world := w1; clock := c2 |};
                         result := Ok charge |}).
  { unfold get_header. cbn [world]. rewrite Hh. reflexivity. }
  rewrite run_bind, Hcharge. cbn [result events final].
  rewrite run_bind. cbn [result events final print print_end ret app].
  reflexivity.
Qed.

(** C9. Each of the four query cells (5, 9, 13 and 15) does the same with
    its query: it reads the clock, issues the query with
    [enable_cross_partition_query=True], holds the complete result list
    before it reads the clock again, and then prints three lines and nothing
    else: the number of results, the time elapsed between the two clock
    readings, and the [x-ms-request-charge] header as the client holds it
    after the query, that is of its last response. *)
Theorem query_cells_report_count_time_charge
    (cell : ContainerProxy -> M E (list json)) query :
  In (cell, query)
     [(cell5, query_field1); (cell9, query_field1);
      (cell13, query_field1); (cell15, query_field2)] ->
  forall (c : ContainerProxy) (st : state E) t0 c1 results w1 t1 c2 charge,
    time_time E (clock st) = (t0, c1) ->
    query_items E (of_database c) (container_id c) query true (world st)
    = (inr results, w1) ->
    time_time E c1 = (t1, c2) ->
    last_response_headers E w1 !! charge_header = Some charge ->
    cell c st =
    {| events :=
         [EvTime;
          EvCall (QueryItems (of_database c) (container_id c) query true);
          EvTime;
          EvPrint (("Got " +:+ pretty (length results) +:+ " result(s)") +:+ nl);
          EvPrint (("Time elapsed: " +:+ fmt_ms E t0 t1 +:+ " ms") +:+ nl);
          EvPrint (("Request charge: " +:+ charge +:+ " RUs") +:+ nl)];
       final := {| world := w1; clock := c2 |};
       result := Ok results |}.
Proof.
  intros Hin c st t0 c1 results w1 t1 c2 charge Ht0 Hq Ht1 Hh.
  simpl in Hin.
  destruct Hin as [H|[H|[H|[H|[]]]]]; injection H as <- <-;
    apply (query_cell_run _ c st t0 c1 results w1 t1 c2 charge Ht0 Hq Ht1 Hh).
Qed.

End QueryAndMeasure.

(** ** Exceptions *)

Section Exceptions.
Context {E : Env}.

Lemma quiet_app (l1 l2 : list event) : quiet l1 -> quiet l2 -> quiet (l1 ++ l2).
Proof. unfold quiet. intros H1 H2. apply Forall_app. auto. Qed.

Lemma quiet_no_raise pre e post : ~ quiet (pre ++ EvRaised e :: post).
Proof.
  unfold quiet. intros H. apply Forall_app in H as [_ H].
  inversion H as [|? ? Hr _]. discriminate.
Qed.

(** In a trace that ends with its only raise, a raise is that last one. *)
Lemma quiet_last_raise pre' :
  forall pre e e' post,
    quiet pre' -> pre ++ EvRaised e :: post = pre' ++ [EvRaised e'] ->
    post = [] /\ e = e'.
Proof.
  induction pre' as [|x pre' IH]; intros pre e e' post Hq Heq.
  - destruct pre as [|y pre]; simpl in Heq.
    + injection Heq as -> ->. auto.
    + injection Heq as _ Heq. destruct pre; discriminate.
  - inversion Hq as [|? ? Hx Hq']; subst.
    destruct pre as [|y pre]; simpl in Heq.
    + injection Heq as <- _. discriminate.
    + injection Heq as _ Heq. apply (IH pre e e' post Hq' Heq).
Qed.

Lemma propagates_split {A} (r : Run E A) pre e post :
  propagates r -> events r = pre ++ EvRaised e :: post ->
  post = [] /\ result r = Raise e.
Proof.
  unfold propagates. intros H Hev.
  destruct (result r) as [a|e'|].
  - rewrite Hev in H. destruct (quiet_no_raise _ _ _ H).
  - destruct H as (pre' & Hev' & Hq). rewrite Hev in Hev'.
    destruct (quiet_last_raise pre' pre e e' post Hq Hev') as [-> ->]. auto.
  - rewrite Hev in H. destruct (quiet_no_raise _ _ _ H).
Qed.

Lemma propagates_last {A} (r : Run E A) e :
  propagates r -> result r = Raise e -> exists pre, events r = pre ++ [EvRaised e].
Proof.
  unfold propagates. intros H Hr. rewrite Hr in H.
  destruct H as (pre & Hev & _). eauto.
Qed.

Lemma propagating_ret {A} (a : A) : propagating (ret (E := E) a).
Proof. intros st. constructor. Qed.

Lemma propagating_throw {A} e : propagating (throw (E := E) (A := A) e).
Proof. intros st. exists []. split; [reflexivity|constructor]. Qed.

Lemma propagating_out_of_fuel {A} : propagating (out_of_fuel (E := E) (A := A)).
Proof. intros st. constructor. Qed.

Lemma propagating_call {X} c (op : World E -> (exn + X) * World E) :
  propagating (call c op).
Proof.
  intros st. unfold call, propagates.
  destruct (op (world st)) as [[e|x] w]; simpl.
  - exists [EvCall c]. split; [reflexivity|]. repeat constructor.
  - repeat constructor.
Qed.

Lemma propagating_lift {X} (r : exn + X) : propagating (lift (E := E) r).
Proof. destruct r; [apply propagating_throw|apply propagating_ret]. Qed.

Lemma propagating_print_end s end_ : propagating (print_end (E := E) s end_).
Proof. intros st. repeat constructor. Qed.

Lemma propagating_print s : propagating (print (E := E) s).
Proof. apply propagating_print_end. Qed.

Lemma propagating_sleep secs : propagating (sleep (E := E) secs).
Proof. intros st. repeat constructor. Qed.

Lemma propagating_time : propagating (time (E := E)).
Proof.
  intros st. unfold time, propagates.
  destruct (time_time E (clock st)). repeat constructor.
Qed.

Lemma propagating_get_header key : propagating (get_header (E := E) key).
Proof.
  intros st. unfold get_header.
  destruct (last_response_headers E (world st) !! key).
  - apply propagating_ret.
  - apply propagating_throw.
Qed.

Lemma propagating_bind {A B} (m : M E A) (k : A -> M E B) :
  propagating m -> (forall a, propagating (k a)) -> propagating (m ≫= k).
Proof.
  intros Hm Hk st. rewrite run_bind.
  specialize (Hm st). unfold propagates in *.
  destruct (result (m st)) as [a|e|]; cbn [result events]; try exact Hm.
  specialize (Hk a (final (m st))). unfold propagates in Hk.
  destruct (result (k a (final (m st)))) as [b|e|].
  - apply quiet_app; assumption.
  - destruct Hk as (pre & -> & Hq). exists (events (m st) ++ pre).
    split; [apply app_assoc|apply quiet_app; assumption].
  - apply quiet_app; assumption.
Qed.

Lemma propagating_insert_docs (c : ContainerProxy) docs :
  forall progress, propagating (insert_docs (E := E) c docs progress).
Proof.
  induction docs as [|doc rest IH]; intros progress; simpl.
  - apply propagating_ret.
  - apply propagating_bind.
    + destruct (progress mod 10 =? 0);
        [apply propagating_print_end|apply propagating_ret].
    + intros _. apply propagating_bind; [apply propagating_call|].
      intros _. apply IH.
Qed.

Lemma propagating_poll (c : ContainerProxy) : propagating (poll (E := E) c).
Proof.
  unfold poll, container_read.
  apply propagating_bind; [apply propagating_call|]. intros _.
  apply propagating_bind; [apply propagating_get_header|]. intros v.
  apply propagating_bind; [apply propagating_print_end|]. intros _.
  apply propagating_ret.
Qed.

Lemma propagating_wait_loop (c : ContainerProxy) fuel :
  forall p, propagating (wait_loop (E := E) fuel c p).
Proof.
  induction fuel as [|fuel IH]; intros p; simpl;
    destruct (String.eqb p "100"); try apply propagating_ret.
  - apply propagating_out_of_fuel.
  - apply propagating_bind; [apply propagating_sleep|]. intros _.
    apply propagating_bind; [apply propagating_poll|]. intros v. apply IH.
Qed.

Lemma propagating_query_cell query (c : ContainerProxy) :
  propagating (query_cell (E := E) query c).
Proof.
  unfold query_cell, container_query_items.
  apply propagating_bind; [apply propagating_time|]. intros t0.
  apply propagating_bind; [apply propagating_call|]. intros results.
  apply propagating_bind; [apply propagating_time|]. intros t1.
  apply propagating_bind; [apply propagating_print|]. intros _.
  apply propagating_bind; [apply propagating_print|]. intros _.
  apply propagating_bind; [apply propagating_get_header|]. intros charge.
  apply propagating_bind; [apply propagating_print|]. intros _.
  apply propagating_ret.
Qed.

Lemma propagating_reset_container (db : DatabaseProxy) :
  propagating (reset_container (E := E) db).
Proof.
  unfold reset_container, db_list_containers, db_delete_container, db_create_container.
  apply propagating_bind; [apply propagating_call|]. intros containers.
  apply propagating_bind.
  - destruct (existsb _ containers); [|apply propagating_ret].
    apply propagating_bind; [apply propagating_call|]. intros _.
    apply propagating_print.
  - intros _. apply propagating_bind; [apply propagating_call|]. intros _.
    apply propagating_print.
Qed.

Lemma propagating_cell3 (db : DatabaseProxy) : propagating (cell3 (E := E) db).
Proof.
  unfold cell3, urlopen.
  apply propagating_bind; [apply propagating_call|]. intros text.
  apply propagating_bind; [apply propagating_lift|]. intros docs.
  apply propagating_bind; [apply propagating_lift|]. intros items.
  apply propagating_bind; [apply propagating_insert_docs|]. intros _.
  apply propagating_ret.
Qed.

Lemma propagating_cell7 (db : DatabaseProxy) (c : ContainerProxy) :
  propagating (cell7 (E := E) db c).
Proof.
  unfold cell7, db_replace_container.
  apply propagating_bind; [apply propagating_call|]. intros _.
  apply propagating_print.
Qed.

Lemma propagating_cell11 fuel (db : DatabaseProxy) (c : ContainerProxy) :
  propagating (cell11 (E := E) fuel db c).
Proof.
  unfold cell11, db_replace_container, wait_for_transformation.
  apply propagating_bind; [apply propagating_call|]. intros _.
  apply propagating_bind; [apply propagating_print|]. intros _.
  apply propagating_bind; [apply propagating_poll|]. intros v.
  apply propagating_bind; [apply propagating_wait_loop|]. intros _.
  apply propagating_print.
Qed.

Lemma starts_with_call {X} c (op : World E -> (exn + X) * World E) st :
  starts_with (EvCall c) (call c op st).
Proof.
  unfold starts_with, call. destruct (op (world st)) as [[e|x] w]; simpl; eauto.
Qed.

Lemma starts_with_bind {A B} ev (m : M E A) (k : A -> M E B) st :
  starts_with ev (m st) -> starts_with ev ((m ≫= k) st).
Proof.
  intros [rest Hev]. unfold starts_with. rewrite run_bind.
  destruct (result (m st)); cbn [events]; rewrite Hev; simpl; eauto.
Qed.

(** The three ways through the [try] of cell 1. *)
Lemma create_database_step_created (st : state E) w :
  create_database E db_name (world st) = (inr tt, w) ->
  create_database_step st =
  {| events := [EvCall (CreateDatabase db_name);
                EvPrint ("Database created" +:+ nl);
                EvSleep 2];
     final := {| world := w; clock := time_sleep E 2 (clock st) |};
     result := Ok tt |}.
Proof.
  intros H. unfold create_database_step, try_except, cosmos_create_database.
  rewrite run_bind, (run_call_ok _ _ _ _ _ H). reflexivity.
Qed.

Lemma create_database_step_conflict (st : state E) w :
  create_database E db_name (world st) = (inl (CosmosHttpResponseError 409), w) ->
  create_database_step st =
  {| events := [EvCall (CreateDatabase db_name);
                EvRaised (CosmosHttpResponseError 409);
                EvPrint ("Database already exists" +:+ nl)];
     final := {| world := w; clock := clock st |};
     result := Ok tt |}.
Proof.
  intros H. unfold create_database_step, try_except, cosmos_create_database.
  rewrite run_bind, (run_call_raise _ _ _ _ _ H). reflexivity.
Qed.

Lemma create_database_step_other (st : state E) e w :
  create_database E db_name (world st) = (inl e, w) ->
  e <> CosmosHttpResponseError 409 ->
  create_database_step st =
  {| events := [EvCall (CreateDatabase db_name); EvRaised e];
     final := {| world := w; clock := clock st |};
     result := Raise e |}.
Proof.
  intros H Hne. unfold create_database_step, try_except, cosmos_create_database.
  rewrite run_bind, (run_call_raise _ _ _ _ _ H). cbn [result events final].
  destruct e as [sc| | |]; try reflexivity.
  cbn [on_cosmos_error]. destruct (sc =? 409) eqn:Hsc.
  - apply Z.eqb_eq in Hsc. subst sc. contradiction.
  - reflexivity.
Qed.

(** C5. In a run of the whole notebook, an exception raised anywhere has
    one of two fates.  The conflict error (status 409) raised by
    [create_database] is caught: the run prints that the database exists
    and goes on with the container reset, as after a creation.  Every
    other exception, whatever raised it, is the last event of the run, and
    the run ends raising it.  A run that ends raising is one that ended
    this way. *)
Theorem only_the_database_conflict_is_handled fuel (st : state E) :
  let r := notebook fuel st in
  (forall pre e post,
      events r = pre ++ EvRaised e :: post ->
      (pre = [EvCall (CreateDatabase db_name)]
       /\ e = CosmosHttpResponseError 409
       /\ exists post',
            post = EvPrint ("Database already exists" +:+ nl)
                   :: EvCall (ListContainers db_name) :: post')
      \/ (~ (pre = [EvCall (CreateDatabase db_name)] /\ e = CosmosHttpResponseError 409)
          /\ post = [] /\ result r = Raise e))
  /\ (forall e, result r = Raise e -> exists pre, events r = pre ++ [EvRaised e]).
Proof.
  unfold notebook, cell1. rewrite bind_assoc.
  match goal with
  | |- context [(create_database_step ≫= ?k) st] => set (K := k)
  end.
  assert (HK : forall a, propagating (K a)).
  { intros a. unfold K.
    apply propagating_bind.
    - apply propagating_bind; [apply propagating_reset_container|].
      intros _. apply propagating_ret.
    - intros db. apply propagating_bind; [apply propagating_cell3|]. intros c.
      apply propagating_bind; [apply propagating_query_cell|]. intros _.
      apply propagating_bind; [apply propagating_cell7|]. intros _.
      apply propagating_bind; [apply propagating_query_cell|]. intros _.
      apply propagating_bind; [apply propagating_cell11|]. intros _.
      apply propagating_bind; [apply propagating_query_cell|]. intros _.
      apply propagating_bind; [apply propagating_query_cell|]. intros _.
      apply propagating_call. }
  assert (HS : forall a s, starts_with (EvCall (ListContainers db_name)) (K a s)).
  { intros a s. unfold K. do 3 apply starts_with_bind. apply starts_with_call. }
  rewrite run_bind.
  destruct (create_database E db_name (world st)) as [[e0|[]] w] eqn:Hc.
  - destruct (decide (e0 = CosmosHttpResponseError 409)) as [->|Hne].
    + rewrite (create_database_step_conflict st w Hc). cbn [result events final].
      set (rK := K tt {| world := w; clock := clock st |}).
      specialize (HK tt {| world := w; clock := clock st |}). fold rK in HK.
      split.
      * intros pre e post Hev.
        destruct pre as [|a [|b [|c pre]]]; simpl in Hev; try discriminate.
        -- injection Hev as <- <- <-. left. split; [reflexivity|]. split; [reflexivity|].
           destruct (HS tt {| world := w; clock := clock st |}) as [rest Hrest].
           fold rK in Hrest. rewrite Hrest. eauto.
        -- injection Hev as <- <- <- Hev. right.
           destruct (propagates_split rK pre e post HK Hev) as [-> Hres].
           split; [intros [? _]; discriminate|]. auto.
      * intros e Hres. destruct (propagates_last rK e HK Hres) as [pre ->].
        eexists (_ :: _ :: _ :: pre). reflexivity.
    + rewrite (create_database_step_other st e0 w Hc Hne). cbn [result events final].
      split.
      * intros pre e post Hev.
        destruct pre as [|a [|b pre]]; simpl in Hev; try discriminate.
        -- injection Hev as <- <- <-. right.
           split; [intros [_ ?]; contradiction|]. auto.
        -- injection Hev as _ _ Hev. destruct pre; discriminate.
      * intros e [= <-]. exists [EvCall (CreateDatabase db_name)]. reflexivity.
  - rewrite (create_database_step_created st w Hc). cbn [result events final].
    set (st1 := {| world := w; clock := time_sleep E 2 (clock st) |}).
    set (rK := K tt st1).
    specialize (HK tt st1). fold rK in HK.
    split.
    + intros pre e post Hev.
      destruct pre as [|a [|b [|c pre]]]; simpl in Hev; try discriminate.
      injection Hev as <- <- <- Hev. right.
      destruct (propagates_split rK pre e post HK Hev) as [-> Hres].
      split; [intros [? _]; discriminate|]. auto.
    + intros e Hres. destruct (propagates_last rK e HK Hres) as [pre ->].
      eexists (_ :: _ :: _ :: pre). reflexivity.
Qed.

End Exceptions.

(** ** The setup of cell 1 *)

Section Setup.
Context {E : Env}.

Lemma listed_iff (l : list ContainerProperties) :
  listed l = true <-> In container_name (map id l).
Proof.
  unfold listed. rewrite existsb_exists, in_map_iff. split.
  - intros (x & Hin & Heq). apply String.eqb_eq in Heq. eauto.
  - intros (x & Heq & Hin). exists x. split; [exact Hin|]. now apply String.eqb_eq.
Qed.

Lemma reset_container_listed (st : state E) l w1 w2 w3 :
  list_containers E db_name (world st) = (inr l, w1) ->
  listed l = true ->
  delete_container E db_name container_name w1 = (inr tt, w2) ->
  create_container E db_name container_name {| path := "/id" |} w2 = (inr tt, w3) ->
  reset_container (get_database_client db_name) st =
  {| events := reset_events true;
     final := {| world := w3; clock := clock st |};
     result := Ok tt |}.
Proof.
  intros Hl Hlisted Hd Hc.
  unfold reset_container, db_list_containers, db_delete_container, db_create_container.
  cbn [get_database_client database_id].
  rewrite run_bind, (run_call_ok _ _ _ _ _ Hl). cbn [result events final].
  fold (listed l). rewrite Hlisted.
  rewrite run_bind, run_bind.
  rewrite (run_call_ok _ _ {| world := w1; clock := clock st |} tt w2 Hd).
  cbn [result events final print print_end clock].
  rewrite run_bind.
  rewrite (run_call_ok _ _ {| world := w2; clock := clock st |} tt w3 Hc).
  reflexivity.
Qed.

Lemma reset_container_unlisted (st : state E) l w1 w3 :
  list_containers E db_name (world st) = (inr l, w1) ->
  listed l = false ->
  create_container E db_name container_name {| path := "/id" |} w1 = (inr tt, w3) ->
  reset_container (get_database_client db_name) st =
  {| events := reset_events false;
     final := {| world := w3; clock := clock st |};
     result := Ok tt |}.
Proof.
  intros Hl Hlisted Hc.
  unfold reset_container, db_list_containers, db_delete_container, db_create_container.
  cbn [get_database_client database_id].
  rewrite run_bind, (run_call_ok _ _ _ _ _ Hl). cbn [result events final].
  fold (listed l). rewrite Hlisted.
  rewrite run_bind. cbn [result events final ret].
  rewrite run_bind.
  rewrite (run_call_ok _ _ {| world := w1; clock := clock st |} tt w3 Hc).
  reflexivity.
Qed.

(** A reset that completed listed the containers, dropped the container if
    it was listed, and ended on a [create_container] that returned. *)
Lemma reset_container_ok_inv (st : state E) :
  let r := reset_container (get_database_client db_name) st in
  result r = Ok tt ->
  exists l w1 w2,
    list_containers E db_name (world st) = (inr l, w1)
    /\ (if listed l
        then delete_container E db_name container_name w1 = (inr tt, w2)
        else w2 = w1)
    /\ create_container E db_name container_name {| path := "/id" |} w2
       = (inr tt, world (final r))
    /\ events r = reset_events (listed l).
Proof.
  destruct (list_containers E db_name (world st)) as [[e|l] w1] eqn:Hl.
  - unfold reset_container, db_list_containers. cbn [get_database_client database_id].
    rewrite run_bind, (run_call_raise _ _ _ _ _ Hl). discriminate.
  - destruct (listed l) eqn:Hlisted.
    + destruct (delete_container E db_name container_name w1) as [[e|[]] w2] eqn:Hd.
      * unfold reset_container, db_list_containers, db_delete_container.
        cbn [get_database_client database_id].
        rewrite run_bind, (run_call_ok _ _ _ _ _ Hl). cbn [result events final].
        fold (listed l). rewrite Hlisted.
        rewrite run_bind, run_bind.
        rewrite (run_call_raise _ _ {| world := w1; clock := clock st |} e w2 Hd).
        discriminate.
      * destruct (create_container E db_name container_name {| path := "/id" |} w2)
          as [[e|[]] w3] eqn:Hc.
        -- unfold reset_container, db_list_containers, db_delete_container,
             db_create_container.
           cbn [get_database_client database_id].
           rewrite run_bind, (run_call_ok _ _ _ _ _ Hl). cbn [result events final].
           fold (listed l). rewrite Hlisted.
           rewrite run_bind, run_bind.
           rewrite (run_call_ok _ _ {| world := w1; clock := clock st |} tt w2 Hd).
           cbn [result events final print print_end clock].
           rewrite run_bind.
           rewrite (run_call_raise _ _ {| world := w2; clock := clock st |} e w3 Hc).
           discriminate.
        -- rewrite (reset_container_listed st l w1 w2 w3 Hl Hlisted Hd Hc).
           intros r _. subst r. exists l, w1, w2. rewrite Hlisted. auto.
    + destruct (create_container E db_name container_name {| path := "/id" |} w1)
        as [[e|[]] w3] eqn:Hc.
      * unfold reset_container, db_list_containers, db_create_container.
        cbn [get_database_client database_id].
        rewrite run_bind, (run_call_ok _ _ _ _ _ Hl). cbn [result events final].
        fold (listed l). rewrite Hlisted.
        rewrite run_bind. cbn [result events final ret].
        rewrite run_bind.
        rewrite (run_call_raise _ _ {| world := w1; clock := clock st |} e w3 Hc).
        discriminate.
      * rewrite (reset_container_unlisted st l w1 w3 Hl Hlisted Hc).
        intros r _. subst r. exists l, w1, w1. rewrite Hlisted. auto.
Qed.

(** Cell 1 is the database step followed by the reset. *)
Lemma cell1_ok_inv (st : state E) database_client :
  result (cell1 st) = Ok database_client ->
  database_client = get_database_client db_name
  /\ result (create_database_step st) = Ok tt
  /\ result (reset_container (get_database_client db_name)
               (final (create_database_step st))) = Ok tt
  /\ final (cell1 st)
     = final (reset_container (get_database_client db_name)
                (final (create_database_step st)))
  /\ events (cell1 st)
     = events (create_database_step st)
       ++ events (reset_container (get_database_client db_name)
                    (final (create_database_step st))).
Proof.
  unfold cell1. rewrite run_bind.
  destruct (result (create_database_step st)) as [[]| |]; cbn [result]; try discriminate.
  rewrite run_bind.
  destruct (result (reset_container _ _)) as [[]| |]; cbn [result events final ret];
    try discriminate.
  intros [= <-]. rewrite app_nil_r. auto.
Qed.

Section WithStore.
Variable store : World E -> gmap string (gmap string Container).

(** After a setup that completed, the database holds the container as
    [create_container] made it. *)
Lemma cell1_ok_store (st : state E) database_client :
  create_container_empty E store ->
  result (cell1 st) = Ok database_client ->
  database_client = get_database_client db_name
  /\ exists cs,
       store (world (final (cell1 st))) !! db_name
       = Some (<[container_name := new_container]> cs).
Proof.
  intros Hlaw Hres.
  destruct (cell1_ok_inv st database_client Hres) as (Hdb & _ & Hreset & Hfinal & _).
  destruct (reset_container_ok_inv _ Hreset) as (l & w1 & w2 & _ & _ & Hc & _).
  destruct (Hlaw _ _ _ _ _ Hc) as (cs & _ & Hstore).
  split; [exact Hdb|]. exists cs. rewrite Hfinal, Hstore. apply lookup_insert_eq.
Qed.

(** C10. Setup does not keep a container it finds.  When cell 1
    completes, its trace after the database step is: list the containers;
    if the target name is listed, delete that container and say so; then
    create the container.  Under the law that a created container is empty,
    the account then holds the target container with no document in it and
    the default policy, whatever it held before. *)
Theorem setup_recreates_the_container_empty (st : state E) database_client :
  create_container_empty E store ->
  let r := cell1 st in
  result r = Ok database_client ->
  database_client = get_database_client db_name
  /\ (exists l w',
        list_containers E db_name (world (final (create_database_step st))) = (inr l, w')
        /\ events r = events (create_database_step st) ++ reset_events (listed l))
  /\ (exists cs cont,
        store (world (final r)) !! db_name = Some cs
        /\ cs !! container_name = Some cont
        /\ items cont = []
        /\ policy cont = default_policy).
Proof.
  intros Hlaw r Hres. subst r.
  destruct (cell1_ok_inv st database_client Hres) as (Hdb & _ & Hreset & Hfinal & Hev).
  destruct (reset_container_ok_inv _ Hreset) as (l & w1 & w2 & Hl & _ & Hc & Hevr).
  split; [exact Hdb|]. split.
  - exists l, w1. rewrite Hev, Hevr. auto.
  - destruct (Hlaw _ _ _ _ _ Hc) as (cs & _ & Hstore).
    exists (<[container_name := new_container]> cs), new_container.
    rewrite Hfinal, Hstore, lookup_insert_eq, lookup_insert_eq. auto.
Qed.

(** With the database and the container in place, setup goes through:
    conflict caught, container listed, dropped and created again. *)
Lemma cell1_on_existing (st : state E) cs :
  create_database_conflict E store ->
  list_containers_exact E store ->
  delete_container_removes E store ->
  create_container_available E store ->
  store (world st) !! db_name = Some cs ->
  is_Some (cs !! container_name) ->
  result (cell1 st) = Ok (get_database_client db_name)
  /\ events (cell1 st)
     = [EvCall (CreateDatabase db_name);
        EvRaised (CosmosHttpResponseError 409);
        EvPrint ("Database already exists" +:+ nl)]
       ++ reset_events true.
Proof.
  intros Hconflict Hlist Hdelete Hcreate Hdb Hc.
  destruct (Hconflict _ _ _ Hdb) as (w1 & Hcd & Hs1).
  assert (Hdb1 : store w1 !! db_name = Some cs) by (rewrite Hs1; exact Hdb).
  destruct (Hlist _ _ _ Hdb1) as (l & w2 & Hl & Hs2 & Hin).
  assert (Hlisted : listed l = true) by (apply listed_iff, Hin, Hc).
  assert (Hdb2 : store w2 !! db_name = Some cs) by (rewrite Hs2; exact Hdb1).
  destruct (Hdelete _ _ _ _ Hdb2 Hc) as (w3 & Hd & Hs3).
  assert (Hdb3 : store w3 !! db_name = Some (delete container_name cs)).
  { rewrite Hs3. apply lookup_insert_eq. }
  destruct (Hcreate w3 db_name _ container_name {| path := "/id" |} Hdb3
              (lookup_delete_eq _ _)) as (w4 & Hcc).
  unfold cell1. rewrite run_bind, (create_database_step_conflict st w1 Hcd).
  cbn [result events final].
  rewrite run_bind.
  rewrite (reset_container_listed {| world := w1; clock := clock st |} l w2 w3 w4
             Hl Hlisted Hd Hcc).
  cbn [result events final ret]. rewrite app_nil_r. auto.
Qed.

(** C6. Under the laws of the service for existing resources (creating an
    existing database is the conflict error; listing shows the containers
    there are; an existing container can be deleted; a free name can be
    created; a created container is there), a second run of cell 1 on the
    account the first run left completes: the conflict on the database is
    caught, the container is found, dropped and created again. *)
Theorem setup_twice_does_not_fail (st : state E) database_client :
  create_database_conflict E store ->
  list_containers_exact E store ->
  delete_container_removes E store ->
  create_container_available E store ->
  create_container_empty E store ->
  result (cell1 st) = Ok database_client ->
  let again := cell1 (final (cell1 st)) in
  result again = Ok (get_database_client db_name)
  /\ events again
     = [EvCall (CreateDatabase db_name);
        EvRaised (CosmosHttpResponseError 409);
        EvPrint ("Database already exists" +:+ nl);
        EvCall (ListContainers db_name);
        EvCall (DeleteContainer db_name container_name);
        EvPrint ("Container dropped" +:+ nl);
        EvCall (CreateContainer db_name container_name {| path := "/id" |});
        EvPrint ("Container created" +:+ nl)].
Proof.
  intros Hconflict Hlist Hdelete Hcreate Hempty Hres.
  destruct (cell1_ok_inv st database_client Hres) as (_ & _ & Hreset & Hfinal & _).
  destruct (reset_container_ok_inv _ Hreset) as (l & w1 & w2 & _ & _ & Hc & _).
  destruct (Hempty _ _ _ _ _ Hc) as (cs & _ & Hstore).
  apply (cell1_on_existing (final (cell1 st)) (<[container_name := new_container]> cs));
    try assumption.
  - rewrite Hfinal, Hstore. apply lookup_insert_eq.
  - rewrite lookup_insert_eq. eauto.
Qed.

End WithStore.
End Setup.

(** ** The container after the load *)

Section AfterLoad.
Context {E : Env}.
Variable store : World E -> gmap string (gmap string Container).

(** A load that completed has added the documents, in order, to the
    container it was pointed at. *)
Lemma insert_docs_store (c : ContainerProxy) docs :
  create_item_adds E store ->
  forall progress (st : state E) cs cont n,
    store (world st) !! of_database c = Some cs ->
    cs !! container_id c = Some cont ->
    result (insert_docs c docs progress st) = Ok n ->
    exists cs',
      store (world (final (insert_docs c docs progress st))) !! of_database c = Some cs'
      /\ cs' !! container_id c
         = Some {| policy := policy cont; items := items cont ++ docs |}.
Proof.
  intros Hlaw. induction docs as [|doc rest IH]; intros progress st cs cont n Hdb Hc.
  - simpl. intros _. exists cs. rewrite app_nil_r. destruct cont. auto.
  - simpl insert_docs.
    destruct (progress_line_run progress st) as (evs & Hrun & _).
    rewrite run_bind, Hrun. cbn [result events final].
    rewrite run_bind. unfold container_create_item.
    destruct (create_item E (of_database c) (container_id c) doc (world st))
      as [[e|x] w] eqn:Hci;
      [rewrite (run_call_raise _ _ _ _ _ Hci)|rewrite (run_call_ok _ _ _ _ _ Hci)];
      cbn [result events final]; [discriminate|].
    destruct (Hlaw _ _ _ _ _ _ Hci) as (cs0 & cont0 & Hdb0 & Hc0 & Hstore).
    rewrite Hdb in Hdb0. injection Hdb0 as <-.
    rewrite Hc in Hc0. injection Hc0 as <-.
    intros Hres.
    destruct (IH (progress + 1) {| world := w; clock := clock st |}
                (<[container_id c := add_item doc cont]> cs) (add_item doc cont) n)
      as (cs' & Hdb' & Hc').
    + cbn [world]. rewrite Hstore. apply lookup_insert_eq.
    + apply lookup_insert_eq.
    + exact Hres.
    + exists cs'. split; [exact Hdb'|].
      rewrite Hc'. cbn [add_item policy items]. rewrite <- app_assoc. reflexivity.
Qed.

Lemma cell3_ok_inv (database_client : DatabaseProxy) (st : state E)
    text w1 docs container_client :
  urlopen_read E data_url (world st) = (inr text, w1) ->
  json_loads E text = inr (JArr docs) ->
  result (cell3 database_client st) = Ok container_client ->
  container_client = get_container_client database_client container_name
  /\ exists n,
       result (insert_docs container_client docs 1 {| world := w1; clock := clock st |})
       = Ok n
       /\ final (cell3 database_client st)
          = final (insert_docs container_client docs 1
                     {| world := w1; clock := clock st |}).
Proof.
  intros Hurl Hjson. unfold cell3.
  rewrite run_bind. unfold urlopen.
  rewrite (run_call_ok _ _ _ _ _ Hurl). cbn [result events final].
  rewrite run_bind, Hjson. cbn [lift ret py_iter result events final].
  rewrite run_bind. cbn [lift ret py_iter result events final].
  rewrite run_bind.
  destruct (result (insert_docs _ docs 1 _)) as [n| |] eqn:Hload;
    cbn [result events final ret]; try discriminate.
  intros [= <-]. split; [reflexivity|]. exists n. auto.
Qed.

(** A query cell that completed got its results from [query_items]. *)
Lemma query_cell_ok_inv query (c : ContainerProxy) (st : state E) results :
  result (query_cell query c st) = Ok results ->
  exists t0 c1 w1 t1 c2 charge,
    time_time E (clock st) = (t0, c1)
    /\ query_items E (of_database c) (container_id c) query true (world st)
       = (inr results, w1)
    /\ time_time E c1 = (t1, c2)
    /\ last_response_headers E w1 !! charge_header = Some charge.
Proof.
  destruct (time_time E (clock st)) as [t0 c1] eqn:Ht0.
  destruct (query_items E (of_database c) (container_id c) query true (world st))
    as [[e|res] w1] eqn:Hq.
  - unfold query_cell, container_query_items.
    assert (Hstart : time st = {| events := [EvTime];
                                  final := {| world := world st; clock := c1 |};
                                  result := Ok t0 |}).
    { unfold time. rewrite Ht0. reflexivity. }
    rewrite run_bind, Hstart. cbn [result events final].
    rewrite run_bind, (run_call_raise _ _ {| world := world st; clock := c1 |} e w1 Hq).
    discriminate.
  - destruct (time_time E c1) as [t1 c2] eqn:Ht1.
    destruct (last_response_headers E w1 !! charge_header) as [charge|] eqn:Hh.
    + rewrite (query_cell_run query c st t0 c1 res w1 t1 c2 charge Ht0 Hq Ht1 Hh).
      intros [= ->]. exists t0, c1, w1, t1, c2, charge. auto.
    + unfold query_cell, container_query_items.
      assert (Hstart : time st = {| events := [EvTime];
                                    final := {| world := world st; clock := c1 |};
                                    result := Ok t0 |}).
      { unfold time. rewrite Ht0. reflexivity. }
      rewrite run_bind, Hstart. cbn [result events final].
      rewrite run_bind, (run_call_ok _ _ {| world := world st; clock := c1 |} res w1 Hq).
      cbn [result events final clock].
      assert (Hend : time {| world := w1; clock := c1 |}
                     = {| events := [EvTime];
                          final := {| world := w1; clock := c2 |};
                          result := Ok t1 |}).
      { unfold time. cbn [clock world]. rewrite Ht1. reflexivity. }
      rewrite run_bind, Hend. cbn [result events final].
      rewrite run_bind. cbn [result events final print print_end].
      rewrite run_bind. cbn [result events final print print_end].
      assert (Hcharge : get_header charge_header {| world := w1; clock := c2 |}
                        = throw (KeyError charge_header) {| world := w1; clock := c2 |}).
      { unfold get_header. cbn [world]. rewrite Hh. reflexivity. }
      rewrite run_bind, Hcharge. discriminate.
Qed.

(** C3. Take a run of cell 3 in which the data file is fetched and parses
    to a JSON array [docs].  Its trace is the fetch followed by one
    [create_item] per record, in the order of the array, each preceded by
    its progress line when it has one, and nothing else.  If the run
    completes, every record was created exactly once, and under the laws
    that a created item is added to its container and that the fetch leaves
    the account alone, the container then holds what it held before
    followed by the records: as many documents more as records were
    fetched.  If the run raises, the exception is the one of the first
    insertion that failed: the records before it were created, the failed
    call is the last call, and no later record is tried. *)
Theorem bulk_load_inserts_every_record
    (database_client : DatabaseProxy) (st : state E) text w1 docs cs cont :
  create_item_adds E store ->
  urlopen_pure E store ->
  urlopen_read E data_url (world st) = (inr text, w1) ->
  json_loads E text = inr (JArr docs) ->
  store (world st) !! database_id database_client = Some cs ->
  cs !! container_name = Some cont ->
  let r := cell3 database_client st in
  let c := get_container_client database_client container_name in
  match result r with
  | Ok container_client =>
      container_client = c
      /\ events r = EvCall (UrlOpen data_url) :: load_events c docs 1
      /\ attempted (events r) = docs
      /\ created (events r) = docs
      /\ exists cs' cont',
           store (world (final r)) !! database_id database_client = Some cs'
           /\ cs' !! container_name = Some cont'
           /\ items cont' = items cont ++ docs
           /\ length (items cont') = (length (items cont) + length docs)%nat
  | Raise e =>
      exists done failed rest,
        docs = done ++ failed :: rest
        /\ events r
           = EvCall (UrlOpen data_url) :: load_events c (done ++ [failed]) 1 ++ [EvRaised e]
        /\ attempted (events r) = done ++ [failed]
        /\ created (events r) = done
  | OutOfFuel => False
  end.
Proof.
  intros Hadds Hpure Hurl Hjson Hdb Hc. cbv zeta. unfold cell3.
  rewrite run_bind. unfold urlopen.
  rewrite (run_call_ok _ _ _ _ _ Hurl). cbn [result events final].
  rewrite run_bind, Hjson. cbn [lift ret py_iter result events final].
  rewrite run_bind. cbn [lift ret py_iter result events final].
  rewrite run_bind.
  set (c := get_container_client database_client container_name).
  set (st1 := {| world := w1; clock := clock st |}).
  pose proof (insert_docs_trace c docs 1 st1) as Htrace. cbv zeta in Htrace.
  destruct (result (insert_docs c docs 1 st1)) as [n|e|] eqn:Hload;
    cbn [result events final ret app].
  - destruct Htrace as (Hev & Ha & Hcr).
    rewrite app_nil_r. split; [reflexivity|]. split; [now rewrite Hev|].
    split; [exact Ha|]. split; [exact Hcr|].
    destruct (insert_docs_store c docs Hadds 1 st1 cs cont n) as (cs' & Hdb' & Hc').
    + cbn [world st1 c get_container_client of_database].
      rewrite (Hpure _ _ _ _ Hurl). exact Hdb.
    + exact Hc.
    + exact Hload.
    + exists cs', {| policy := policy cont; items := items cont ++ docs |}.
      split; [exact Hdb'|]. split; [exact Hc'|]. split; [reflexivity|].
      cbn [items]. rewrite length_app. reflexivity.
  - destruct Htrace as (done & failed & rest & Hd & Hev & Ha & Hcr).
    exists done, failed, rest.
    split; [exact Hd|]. split; [now rewrite Hev|]. split; [exact Ha|exact Hcr].
  - exact Htrace.
Qed.

(** X11. Cells 1 and 3 compose into a clean load.  Under the laws that a
    created container is empty with the default policy, that a created item
    is added to its container and that the fetch leaves the account alone,
    when both cells complete and the data parsed to the array [docs], the
    container holds exactly the records of [docs], in order, whatever the
    account held before cell 1. *)
Theorem setup_then_load_holds_the_fetched_records
    (st : state E) database_client text w2 docs container_client :
  create_container_empty E store ->
  create_item_adds E store ->
  urlopen_pure E store ->
  let r1 := cell1 st in
  let r3 := cell3 database_client (final r1) in
  result r1 = Ok database_client ->
  urlopen_read E data_url (world (final r1)) = (inr text, w2) ->
  json_loads E text = inr (JArr docs) ->
  result r3 = Ok container_client ->
  exists cs,
    store (world (final r3)) !! db_name = Some cs
    /\ cs !! container_name = Some {| policy := default_policy; items := docs |}.
Proof.
  intros Hempty Hadds Hpure r1 r3 H1 Hurl Hjson H3. subst r1 r3.
  destruct (cell1_ok_store store st database_client Hempty H1) as (Hdb & cs & Hcs).
  subst database_client.
  destruct (cell3_ok_inv _ _ text w2 docs container_client Hurl Hjson H3)
    as (Hcc & n & Hload & Hfinal3).
  subst container_client.
  assert (Hs2 : store w2 !! db_name = Some (<[container_name := new_container]> cs)).
  { rewrite (Hpure _ _ _ _ Hurl). exact Hcs. }
  destruct (insert_docs_store (get_container_client (get_database_client db_name)
                                 container_name) docs Hadds 1
              {| world := w2; clock := clock (final (cell1 st)) |}
              (<[container_name := new_container]> cs) new_container n)
    as (cs' & Hdb' & Hc').
  { exact Hs2. }
  { apply lookup_insert_eq. }
  { exact Hload. }
  cbn [get_container_client get_database_client of_database container_id database_id
       new_container policy items app] in Hdb', Hc'.
  exists cs'. rewrite Hfinal3. auto.
Qed.

End AfterLoad.

(** ** The in-memory account obeys the laws *)

Section SimLaws.

Lemma sim_create_database_conflict : create_database_conflict Sim.env Sim.dbs.
Proof.
  intros w name cs H. exists w. cbn. unfold Sim.create_database. rewrite H. auto.
Qed.

Lemma sim_list_containers_exact : list_containers_exact Sim.env Sim.dbs.
Proof.
  intros w db cs H. eexists _, w. cbn. unfold Sim.list_containers. rewrite H.
  split; [reflexivity|]. split; [reflexivity|].
  intros c. rewrite map_map. cbn. rewrite in_map_iff. split.
  - intros ([k v] & <- & Hin). apply list_elem_of_In, elem_of_map_to_list in Hin.
    cbn. eauto.
  - intros [v Hv]. exists (c, v). split; [reflexivity|].
    apply list_elem_of_In, elem_of_map_to_list. exact Hv.
Qed.

Lemma sim_delete_container_removes : delete_container_removes Sim.env Sim.dbs.
Proof.
  intros w db cs c H [v Hv]. eexists. cbn. unfold Sim.delete_container.
  rewrite H, Hv. split; reflexivity.
Qed.

Lemma sim_create_container_available : create_container_available Sim.env Sim.dbs.
Proof.
  intros w db cs c pk H Hc. eexists. cbn. unfold Sim.create_container.
  rewrite H, Hc. reflexivity.
Qed.

Lemma sim_create_container_empty : create_container_empty Sim.env Sim.dbs.
Proof.
  intros w db c pk w'. cbn. unfold Sim.create_container, Sim.not_found.
  destruct (Sim.dbs w !! db) as [cs|] eqn:H; [|discriminate].
  destruct (cs !! c); [discriminate|].
  intros [= <-]. exists cs. auto.
Qed.

Lemma sim_create_item_adds : create_item_adds Sim.env Sim.dbs.
Proof.
  intros w db c body stored w'. cbn. unfold Sim.create_item, Sim.not_found.
  destruct (Sim.dbs w !! db) as [cs|] eqn:H; [|discriminate].
  destruct (cs !! c) as [cont|] eqn:Hc; [|discriminate].
  intros [= _ <-]. exists cs, cont. auto.
Qed.

Lemma sim_urlopen_pure : urlopen_pure Sim.env Sim.dbs.
Proof. intros w url r w'. cbn. unfold Sim.urlopen_read. now intros [= _ <-]. Qed.

End SimLaws.

(** ** The theorems on the in-memory account *)

Lemma bulk_load_inserts_every_record_witness :
  create_item_adds Sim.env Sim.dbs
  /\ urlopen_pure Sim.env Sim.dbs
  /\ urlopen_read Sim.env data_url (world (Sim.start Sim.ready))
     = (inr "sample"%string, Sim.ready)
  /\ json_loads Sim.env "sample" = inr (JArr Sim.sample)
  /\ result (cell3 Sim.the_database (Sim.start Sim.ready)) = Ok Sim.the_container
  /\ events (cell3 Sim.the_database (Sim.start Sim.ready))
     = EvCall (UrlOpen data_url) :: load_events Sim.the_container Sim.sample 1
  /\ created (events (cell3 Sim.the_database (Sim.start Sim.ready))) = Sim.sample
  /\ exists cs' cont',
       Sim.dbs (world (final (cell3 Sim.the_database (Sim.start Sim.ready)))) !! db_name
       = Some cs'
       /\ cs' !! container_name = Some cont'
       /\ items cont' = Sim.sample
       /\ length (items cont') = 4%nat.
Proof.
  split; [exact sim_create_item_adds|]. split; [exact sim_urlopen_pure|].
  split; [reflexivity|]. split; [reflexivity|].
  pose proof (bulk_load_inserts_every_record (E := Sim.env) Sim.dbs Sim.the_database
                (Sim.start Sim.ready) "sample"%string Sim.ready Sim.sample
                {[ container_name := new_container ]} new_container
                sim_create_item_adds sim_urlopen_pure eq_refl eq_refl) as H.
  cbv zeta in H.
  assert (Hres : result (cell3 Sim.the_database (Sim.start Sim.ready))
                 = Ok Sim.the_container) by (vm_compute; reflexivity).
  rewrite Hres in H.
  destruct H as (_ & Hev & _ & Hcr & cs' & cont' & Hcs & Hcont & Hitems & Hlen).
  - vm_compute. reflexivity.
  - vm_compute. reflexivity.
  - split; [exact Hres|]. split; [exact Hev|]. split; [exact Hcr|].
    exists cs', cont'. auto.
Defined.

Lemma polling_loop_leaves_exactly_at_100_witness :
  replace_container Sim.env db_name container_name {| path := "/id" |}
    policy_exclude_field2 Sim.ready = (inr tt, Sim.reindexing Sim.ready)
  /\ (let r := cell11 5 Sim.the_database Sim.the_container (Sim.start Sim.ready) in
      result r = Ok tt
      /\ events r =
         [EvCall (ReplaceContainer db_name container_name {| path := "/id" |}
                    policy_exclude_field2);
          EvPrint ("Indexing policy updated" +:+ nl)]
         ++ polling_events Sim.the_container ["30"; "70"; "100"]%string
         ++ transformation_completed)
  /\ result (cell11 7 Sim.the_database Sim.the_container (Sim.start Sim.stuck)) = OutOfFuel.
Proof.
  split; [reflexivity|]. split.
  - destruct (polling_loop_leaves_exactly_at_100 5 Sim.the_database Sim.the_container
                (Sim.start Sim.ready) (Sim.reindexing Sim.ready) eq_refl)
      as (_ & Hexit & _).
    destruct (Hexit ["30"; "70"]%string
                (snd (default (([] : list string), Sim.ready)
                        (observations (E := Sim.env) Sim.the_container 3 (Sim.reindexing Sim.ready)))))
      as (Hres & Hev & _).
    + repeat constructor; discriminate.
    + vm_compute. reflexivity.
    + simpl. lia.
    + split; [exact Hres|exact Hev].
  - destruct (polling_loop_leaves_exactly_at_100 7 Sim.the_database Sim.the_container
                (Sim.start Sim.stuck) (Sim.reindexing Sim.stuck) eq_refl)
      as (_ & _ & Hspin).
    apply (Hspin (repeat "50"%string 8)
             (snd (default (([] : list string), Sim.stuck)
                     (observations (E := Sim.env) Sim.the_container 8 (Sim.reindexing Sim.stuck))))).
    + repeat constructor; discriminate.
    + vm_compute. reflexivity.
Defined.

Lemma query_cells_report_count_time_charge_witness :
  In (cell5 (E := Sim.env), query_field1)
     [(cell5, query_field1); (cell9, query_field1);
      (cell13, query_field1); (cell15, query_field2)]
  /\ time_time Sim.env (clock (Sim.start Sim.loaded)) = (0, 3)
  /\ fst (query_items Sim.env db_name container_name query_field1 true Sim.loaded)
     = inr [Sim.doc "Mario86" 3188; Sim.doc "Mario86" 12]
  /\ events (cell5 Sim.the_container (Sim.start Sim.loaded))
     = query_cell_events Sim.the_container query_field1 2 "3" "2.83".
Proof.
  split; [left; reflexivity|]. split; [reflexivity|]. split; [vm_compute; reflexivity|].
  rewrite (query_cells_report_count_time_charge cell5 query_field1 (or_introl eq_refl)
             Sim.the_container (Sim.start Sim.loaded) 0 3
             [Sim.doc "Mario86" 3188; Sim.doc "Mario86" 12]
             (snd (query_items Sim.env db_name container_name query_field1 true Sim.loaded))
             3 6 "2.83").
  - reflexivity.
  - reflexivity.
  - vm_compute. reflexivity.
  - reflexivity.
  - vm_compute. reflexivity.
Defined.

Lemma setup_recreates_the_container_empty_witness :
  create_container_empty Sim.env Sim.dbs
  /\ result (cell1 (Sim.start Sim.loaded)) = Ok Sim.the_database
  /\ events (cell1 (Sim.start Sim.loaded))
     = events (create_database_step (Sim.start Sim.loaded)) ++ reset_events true
  /\ exists cs cont,
       Sim.dbs (world (final (cell1 (Sim.start Sim.loaded)))) !! db_name = Some cs
       /\ cs !! container_name = Some cont
       /\ items cont = [].
Proof.
  assert (Hres : result (cell1 (Sim.start Sim.loaded)) = Ok Sim.the_database)
    by (vm_compute; reflexivity).
  destruct (setup_recreates_the_container_empty (E := Sim.env) Sim.dbs (Sim.start Sim.loaded)
              Sim.the_database sim_create_container_empty Hres)
    as (_ & _ & cs & cont & Hcs & Hcont & Hitems & _).
  split; [exact sim_create_container_empty|]. split; [exact Hres|].
  split; [vm_compute; reflexivity|].
  exists cs, cont. auto.
Defined.

Lemma setup_twice_does_not_fail_witness :
  result (cell1 (Sim.start Sim.fresh)) = Ok Sim.the_database
  /\ result (cell1 (final (cell1 (Sim.start Sim.fresh)))) = Ok Sim.the_database
  /\ length (events (cell1 (final (cell1 (Sim.start Sim.fresh))))) = 8%nat.
Proof.
  assert (Hres : result (cell1 (Sim.start Sim.fresh)) = Ok Sim.the_database)
    by (vm_compute; reflexivity).
  destruct (setup_twice_does_not_fail (E := Sim.env) Sim.dbs (Sim.start Sim.fresh) Sim.the_database
              sim_create_database_conflict sim_list_containers_exact
              sim_delete_container_removes sim_create_container_available
              sim_create_container_empty Hres)
    as (Hagain & Hev).
  split; [exact Hres|]. split; [exact Hagain|]. rewrite Hev. reflexivity.
Defined.

Lemma setup_then_load_holds_the_fetched_records_witness :
  let r1 := cell1 (Sim.start Sim.loaded) in
  let r3 := cell3 Sim.the_database (final r1) in
  result r1 = Ok Sim.the_database
  /\ result r3 = Ok Sim.the_container
  /\ exists cs,
       Sim.dbs (world (final r3)) !! db_name = Some cs
       /\ cs !! container_name = Some {| policy := default_policy; items := Sim.sample |}.
Proof.
  intros r1 r3.
  assert (H1 : result r1 = Ok Sim.the_database) by (vm_compute; reflexivity).
  assert (H3 : result r3 = Ok Sim.the_container) by (vm_compute; reflexivity).
  split; [exact H1|]. split; [exact H3|].
  exact (setup_then_load_holds_the_fetched_records (E := Sim.env) Sim.dbs
           (Sim.start Sim.loaded) Sim.the_database "sample"%string (world (final r1))
           Sim.sample Sim.the_container
           sim_create_container_empty sim_create_item_adds sim_urlopen_pure
           H1 eq_refl eq_refl H3).
Defined.

(** ** Sample runs *)

Example fmt_5d_10 : fmt_5d 10 = "   10"%string.
Proof. reflexivity. Qed.

Example fmt_5d_10000 : fmt_5d 10000 = "10000"%string.
Proof. reflexivity. Qed.

Example py_iter_int : py_iter (JInt 3) = inl TypeError.
Proof. reflexivity. Qed.

Example py_iter_dict :
  py_iter (Sim.doc "Garry75" 405) = inr [JStr "field1"; JStr "field2"].
Proof. reflexivity. Qed.

(** The whole notebook on a new account goes through. *)
Example notebook_on_fresh :
  result (notebook 5 (Sim.start Sim.fresh)) = Ok tt
  /\ length (events (notebook 5 (Sim.start Sim.fresh))) = 49%nat.
Proof. vm_compute. split; reflexivity. Qed.

(** With one iteration allowed where two are needed, it is still in the
    loop of cell 11. *)
Example notebook_short_of_fuel :
  result (notebook 1 (Sim.start Sim.fresh)) = OutOfFuel.
Proof. vm_compute. reflexivity. Qed.

(** A data file that does not parse ends the run in cell 3. *)
Example notebook_bad_data :
  let w := {| Sim.dbs := ∅; Sim.headers := ∅; Sim.pending := []; Sim.steady := "100";
              Sim.blob := "<html>" |} in
  result (notebook 5 (Sim.start w)) = Raise (OtherError "JSONDecodeError")
  /\ last (events (notebook 5 (Sim.start w))) = Some (EvRaised (OtherError "JSONDecodeError")).
Proof. vm_compute. split; reflexivity. Qed.

(** Loading twice without the reset in between doubles the count. *)
Example load_twice_counts_twice :
  let r3 := cell3 Sim.the_database (Sim.start Sim.loaded) in
  result (cell5 Sim.the_container (final r3))
  = Ok [Sim.doc "Mario86" 3188; Sim.doc "Mario86" 12;
        Sim.doc "Mario86" 3188; Sim.doc "Mario86" 12].
Proof. vm_compute. reflexivity. Qed.

(** Cell 9 is cell 5 again, and cell 7 between them makes one call. *)
Lemma cell9_repeats_cell5 {E : Env} : cell9 (E := E) = cell5.
Proof. reflexivity. Qed.

Lemma cell7_calls_replace_only {E : Env} (db : DatabaseProxy) (c : ContainerProxy)
    (st : state E) :
  exists rest,
    events (cell7 db c st)
    = EvCall (ReplaceContainer (database_id db) (container_id c) {| path := "/id" |}
                policy_none) :: rest
    /\ attempted rest = []
    /\ (rest = [EvPrint ("Indexing policy updated" +:+ nl)] \/ exists e, rest = [EvRaised e]).
Proof.
  unfold cell7, db_replace_container. rewrite run_bind.
  destruct (replace_container E (database_id db) (container_id c) {| path := "/id" |}
              policy_none (world st)) as [[e|[]] w] eqn:H.
  - rewrite (run_call_raise _ _ _ _ _ H). cbn [result events].
    eexists. split; [reflexivity|]. split; [reflexivity|]. right. eauto.
  - rewrite (run_call_ok _ _ _ _ _ H). cbn [result events final print print_end app].
    eexists. split; [reflexivity|]. split; [reflexivity|]. now left.
Qed.

(** * More on the cells *)

(** ** The progress lines of the load *)

Section ProgressLines.
Context {E : Env}.

Lemma count_app p (l1 l2 : list event) : count p (l1 ++ l2) = (count p l1 + count p l2)%nat.
Proof. unfold count. now rewrite List.filter_app, length_app. Qed.

Lemma attempted_app (l1 l2 : list event) : attempted (l1 ++ l2) = attempted l1 ++ attempted l2.
Proof.
  induction l1 as [|ev l1 IH]; [reflexivity|].
  destruct ev as [[]| | | |]; simpl; rewrite ?IH; reflexivity.
Qed.

Lemma multiple_of_ten_step (p : Z) :
  p / 10 - (p - 1) / 10 = if p mod 10 =? 0 then 1 else 0.
Proof.
  destruct (p mod 10 =? 0) eqn:H.
  - apply Z.eqb_eq in H. Z.div_mod_to_equations. lia.
  - apply Z.eqb_neq in H. Z.div_mod_to_equations. lia.
Qed.

(** The lines printed by the loop are those of the multiples of ten among
    the positions it reached. *)
Lemma insert_docs_progress_lines (c : ContainerProxy) docs :
  forall progress (st : state E),
    let evs := events (insert_docs c docs progress st) in
    Z.of_nat (count is_print evs)
    = (progress + Z.of_nat (length (attempted evs)) - 1) / 10 - (progress - 1) / 10.
Proof.
  induction docs as [|doc rest IH]; intros progress st; cbv zeta.
  - cbn [insert_docs ret events attempted length count List.filter].
    change (Z.of_nat 0) with 0. rewrite Z.add_0_r. lia.
  - simpl insert_docs.
    assert (Hline : exists evs,
               (if progress mod 10 =? 0 then progress_line progress else ret tt) st
               = {| events := evs; final := st; result := Ok tt |}
               /\ Z.of_nat (count is_print evs) = (if progress mod 10 =? 0 then 1 else 0)
               /\ attempted evs = []).
    { destruct (progress mod 10 =? 0); eexists; (split; [reflexivity|]); auto. }
    destruct Hline as (evs & Hrun & Hcount & Hatt).
    rewrite run_bind, Hrun. cbn [result events final].
    rewrite run_bind. unfold container_create_item.
    destruct (create_item E (of_database c) (container_id c) doc (world st))
      as [[e|x] w] eqn:Hc;
      [rewrite (run_call_raise _ _ _ _ _ Hc)|rewrite (run_call_ok _ _ _ _ _ Hc)];
      cbn [result events final].
    + rewrite count_app, attempted_app, Hatt.
      cbn [count List.filter is_print length attempted app Nat.add] in *.
      rewrite Nat.add_0_r.
      destruct (progress mod 10 =? 0) eqn:Hp;
        [apply Z.eqb_eq in Hp|apply Z.eqb_neq in Hp];
        Z.div_mod_to_equations; lia.
    + specialize (IH (progress + 1) {| world := w; clock := clock st |}). cbv zeta in IH.
      set (r := insert_docs c rest (progress + 1) {| world := w; clock := clock st |}) in *.
      rewrite count_app, attempted_app, Hatt.
      change (EvCall (CreateItem (of_database c) (container_id c) doc) :: events r)
        with ([EvCall (CreateItem (of_database c) (container_id c) doc)] ++ events r).
      rewrite count_app.
      cbn [count List.filter is_print length attempted app Nat.add] in *.
      destruct (progress mod 10 =? 0) eqn:Hp;
        [apply Z.eqb_eq in Hp|apply Z.eqb_neq in Hp];
        Z.div_mod_to_equations; lia.
Qed.

(** X1. In every run of cell 3, whether it completes or raises, the number
    of lines printed is the number of [create_item] calls made, divided by
    ten and rounded down: the progress line is printed before the 10th, the
    20th, ... insertion and at no other point, so a load of fewer than ten
    records prints nothing. *)
Theorem progress_line_every_tenth_insert (database_client : DatabaseProxy) (st : state E) :
  let evs := events (cell3 database_client st) in
  count is_print evs = (length (attempted evs) / 10)%nat.
Proof.
  cbv zeta. unfold cell3. rewrite run_bind. unfold urlopen.
  destruct (urlopen_read E data_url (world st)) as [[e|text] w] eqn:Hurl;
    [rewrite (run_call_raise _ _ _ _ _ Hurl); reflexivity|].
  rewrite (run_call_ok _ _ _ _ _ Hurl). cbn [result events final].
  rewrite run_bind.
  destruct (json_loads E text) as [e|docs]; [reflexivity|].
  cbn [lift ret result events final]. rewrite run_bind.
  destruct (py_iter docs) as [e|items]; [reflexivity|].
  cbn [lift ret result events final]. rewrite run_bind.
  pose proof (insert_docs_progress_lines
                (get_container_client database_client container_name) items 1
                {| world := w; clock := clock st |}) as H.
  cbv zeta in H.
  set (r := insert_docs _ items 1 _) in *.
  assert (Hnat : count is_print (events r) = (length (attempted (events r)) / 10)%nat).
  { apply Nat2Z.inj. rewrite Nat2Z.inj_div, H. Z.div_mod_to_equations; lia. }
  destruct (result r); cbn [result events final ret app]; rewrite ?app_nil_r; exact Hnat.
Qed.

End ProgressLines.

(** ** When cell 3 cannot start the load *)

Section LoadEdges.
Context {E : Env}.

(** X2. When the fetch raises, or the text fetched does not parse, or the
    parsed value is not iterable, cell 3 raises that exception right after
    the fetch: the fetch is its only call and no [create_item] is made. *)
Theorem cell3_stops_before_inserting (database_client : DatabaseProxy) (st : state E) e :
  (exists w, urlopen_read E data_url (world st) = (inl e, w))
  \/ (exists text w,
        urlopen_read E data_url (world st) = (inr text, w)
        /\ json_loads E text = inl e)
  \/ (exists text w docs,
        urlopen_read E data_url (world st) = (inr text, w)
        /\ json_loads E text = inr docs
        /\ py_iter docs = inl e) ->
  let r := cell3 database_client st in
  result r = Raise e
  /\ events r = [EvCall (UrlOpen data_url); EvRaised e]
  /\ attempted (events r) = [].
Proof.
  intros H. cbv zeta. unfold cell3. rewrite run_bind. unfold urlopen.
  destruct H as [(w & Hurl)|[(text & w & Hurl & Hjson)|(text & w & docs & Hurl & Hjson & Hiter)]].
  - rewrite (run_call_raise _ _ _ _ _ Hurl). auto.
  - rewrite (run_call_ok _ _ _ _ _ Hurl). cbn [result events final].
    rewrite run_bind, Hjson. auto.
  - rewrite (run_call_ok _ _ _ _ _ Hurl). cbn [result events final].
    rewrite run_bind, Hjson. cbn [lift ret result events final].
    rewrite run_bind, Hiter. auto.
Qed.

Section WithStore.
Variable store : World E -> gmap string (gmap string Container).

(** X9. Cell 3 neither clears nor deduplicates.  Under the laws that a
    created item is added to its container and that the fetch leaves the
    account alone, a run of cell 3 that completes leaves the container with
    the documents it held before followed by the fetched records in order,
    and with the policy it had. *)
Theorem load_appends_to_the_container
    (database_client : DatabaseProxy) (st : state E) text w1 docs cs cont container_client :
  create_item_adds E store ->
  urlopen_pure E store ->
  urlopen_read E data_url (world st) = (inr text, w1) ->
  json_loads E text = inr (JArr docs) ->
  store (world st) !! database_id database_client = Some cs ->
  cs !! container_name = Some cont ->
  result (cell3 database_client st) = Ok container_client ->
  exists cs',
    store (world (final (cell3 database_client st))) !! database_id database_client = Some cs'
    /\ cs' !! container_name = Some {| policy := policy cont; items := items cont ++ docs |}.
Proof.
  intros Hadds Hpure Hurl Hjson Hdb Hc Hres.
  destruct (cell3_ok_inv database_client st text w1 docs container_client Hurl Hjson Hres)
    as (-> & n & Hload & ->).
  apply (insert_docs_store store (get_container_client database_client container_name)
           docs Hadds 1 {| world := w1; clock := clock st |} cs cont n).
  - cbn [world get_container_client of_database]. rewrite (Hpure _ _ _ _ Hurl). exact Hdb.
  - exact Hc.
  - exact Hload.
Qed.

End WithStore.
End LoadEdges.

(** ** When a query cell cannot report *)

Section QueryEdges.
Context {E : Env}.

(** X3. When [query_items] raises, a query cell raises that exception
    having printed nothing: the clock was read once, before the query, and
    is not read again. *)
Theorem query_cell_raises_without_output query (c : ContainerProxy) (st : state E)
    t0 c1 e w1 :
  time_time E (clock st) = (t0, c1) ->
  query_items E (of_database c) (container_id c) query true (world st) = (inl e, w1) ->
  query_cell query c st =
  {| events := [EvTime;
                EvCall (QueryItems (of_database c) (container_id c) query true);
                EvRaised e];
     final := {| world := w1; clock := c1 |};
     result := Raise e |}.
Proof.
  intros Ht0 Hq. unfold query_cell, container_query_items.
  assert (Hstart : time st = {| events := [EvTime];
                                final := {| world := world st; clock := c1 |};
                                result := Ok t0 |}).
  { unfold time. rewrite Ht0. reflexivity. }
  rewrite run_bind, Hstart. cbn [result events final].
  rewrite run_bind, (run_call_raise _ _ {| world := world st; clock := c1 |} e w1 Hq).
  reflexivity.
Qed.

(** X4. When the query returns but the client holds no
    [x-ms-request-charge] header, a query cell prints the count and the
    elapsed time and then raises [KeyError] on the header name: the charge
    line is not printed and the results are lost with the exception. *)
Theorem query_cell_without_charge_header query (c : ContainerProxy) (st : state E)
    t0 c1 results w1 t1 c2 :
  time_time E (clock st) = (t0, c1) ->
  query_items E (of_database c) (container_id c) query true (world st) = (inr results, w1) ->
  time_time E c1 = (t1, c2) ->
  last_response_headers E w1 !! charge_header = None ->
  query_cell query c st =
  {| events := [EvTime;
                EvCall (QueryItems (of_database c) (container_id c) query true);
                EvTime;
                EvPrint (("Got " +:+ pretty (length results) +:+ " result(s)") +:+ nl);
                EvPrint (("Time elapsed: " +:+ fmt_ms E t0 t1 +:+ " ms") +:+ nl);
                EvRaised (KeyError charge_header)];
     final := {| world := w1; clock := c2 |};
     result := Raise (KeyError charge_header) |}.
Proof.
  intros Ht0 Hq Ht1 Hh. unfold query_cell, container_query_items.
  assert (Hstart : time st = {| events := [EvTime];
                                final := {| world := world st; clock := c1 |};
                                result := Ok t0 |}).
  { unfold time. rewrite Ht0. reflexivity. }
  rewrite run_bind, Hstart. cbn [result events final].
  rewrite run_bind, (run_call_ok _ _ {| world := world st; clock := c1 |} results w1 Hq).
  cbn [result events final clock].
  assert (Hend : time {| world := w1; clock := c1 |}
                 = {| events := [EvTime];
                      final := {| world := w1; clock := c2 |};
                      result := Ok t1 |}).
  { unfold time. cbn [clock world]. rewrite Ht1. reflexivity. }
  rewrite run_bind, Hend. cbn [result events final].
  rewrite run_bind. cbn [result events final print print_end].
  rewrite run_bind. cbn [result events final print print_end].
  assert (Hcharge : get_header charge_header {| world := w1; clock := c2 |}
                    = throw (KeyError charge_header) {| world := w1; clock := c2 |}).
  { unfold get_header. cbn [world]. rewrite Hh. reflexivity. }
  rewrite run_bind, Hcharge. reflexivity.
Qed.

End QueryEdges.

(** ** What the wait of cell 11 does with time and output *)

Section WaitShape.
Context {E : Env}.

(** A poll makes one read; it returns the value it printed or raises. *)
Lemma poll_cases (c : ContainerProxy) (st : state E) :
  (exists e w,
      poll c st =
      {| events := [EvCall (ReadContainer (of_database c) (container_id c) true);
                    EvRaised e];
         final := {| world := w; clock := clock st |};
         result := Raise e |})
  \/ (exists v w,
        poll c st =
        {| events := poll_events c v;
           final := {| world := w; clock := clock st |};
           result := Ok v |}).
Proof.
  unfold poll, container_read. rewrite run_bind.
  destruct (read_container E (of_database c) (container_id c) true (world st))
    as [[e|[]] w] eqn:Hr.
  - rewrite (run_call_raise _ _ _ _ _ Hr). left. eauto.
  - rewrite (run_call_ok _ _ _ _ _ Hr). cbn [result events final].
    rewrite run_bind. unfold get_header. cbn [world].
    destruct (last_response_headers E w !! progress_header) as [v|].
    + right. exists v, w. reflexivity.
    + left. exists (KeyError progress_header), w. reflexivity.
Qed.

Lemma wait_loop_shape (c : ContainerProxy) fuel :
  forall p (st : state E),
    let r := wait_loop fuel c p st in
    count is_sleep (events r) = count is_read (events r)
    /\ count is_time (events r) = 0%nat
    /\ Forall sleeps_five (events r)
    /\ ~ In completed_line (events r)
    /\ clock (final r) = Nat.iter (count is_sleep (events r)) (time_sleep E 5) (clock st).
Proof.
  induction fuel as [|fuel IH]; intros p st; cbv zeta.
  - simpl. destruct (String.eqb p "100"); simpl; repeat split; auto; constructor.
  - destruct (String.eqb p "100") eqn:Hp.
    + apply String.eqb_eq in Hp. subst p. rewrite wait_loop_done. simpl.
      repeat split; auto; constructor.
    + apply String.eqb_neq in Hp. rewrite wait_loop_step by assumption.
      rewrite run_bind. cbn [sleep result events final].
      set (st1 := {| world := world st; clock := time_sleep E 5 (clock st) |}).
      rewrite run_bind.
      destruct (poll_cases c st1) as [(e & w & ->)|(v & w & ->)]; cbn [result events final].
      * cbn. repeat split; auto.
        -- repeat constructor; intros secs; try discriminate. now intros [= <-].
        -- intros [H|[H|[H|[]]]]; discriminate.
      * specialize (IH v {| world := w; clock := clock st1 |}). cbv zeta in IH.
        set (r := wait_loop fuel c v {| world := w; clock := clock st1 |}) in *.
        destruct IH as (Hsr & Ht & Hfive & Hdone & Hclock).
        change ([EvSleep 5] ++ poll_events c v ++ events r)
          with (([EvSleep 5] ++ poll_events c v) ++ events r).
        rewrite !count_app, Ht, Hclock.
        cbn [count List.filter is_sleep is_read is_time poll_events app length Nat.add].
        fold (count is_sleep (events r)). fold (count is_read (events r)).
        split; [lia|]. split; [reflexivity|]. split; [|split].
        -- repeat (constructor;
                     [intros secs Hs; first [discriminate Hs|now injection Hs as <-]|]).
           exact Hfive.
        -- intros [H|[H|[H|H]]]; try discriminate; contradiction.
        -- unfold st1. cbn [clock]. rewrite Nat.iter_succ_r. reflexivity.
Qed.

(** X5. However a run of cell 11 ends (completed, raised, or still
    polling), it never reads the clock, every sleep it makes is of five
    seconds, it sleeps once less than it reads the container (not at all
    when it makes no read), and its clock is the starting clock advanced by
    those sleeps only: the time waited is five seconds per poll after the
    first, and nothing bounds it. *)
Theorem wait_sleeps_five_seconds_between_reads
    fuel (database_client : DatabaseProxy) (c : ContainerProxy) (st : state E) :
  let r := cell11 fuel database_client c st in
  count is_time (events r) = 0%nat
  /\ Forall (fun ev => forall secs, ev = EvSleep secs -> secs = 5) (events r)
  /\ count is_sleep (events r) = Nat.pred (count is_read (events r))
  /\ clock (final r) = Nat.iter (count is_sleep (events r)) (time_sleep E 5) (clock st).
Proof.
  cbv zeta. unfold cell11, db_replace_container. rewrite run_bind.
  destruct (replace_container E (database_id database_client) (container_id c)
              {| path := "/id" |} policy_exclude_field2 (world st)) as [[e|[]] w] eqn:Hrep.
  - rewrite (run_call_raise _ _ _ _ _ Hrep). cbn.
    repeat split; auto. repeat constructor; intros secs; discriminate.
  - rewrite (run_call_ok _ _ _ _ _ Hrep). cbn [result events final].
    rewrite run_bind. cbn [print print_end result events final].
    unfold wait_for_transformation. rewrite run_bind.
    set (st1 := {| world := w; clock := clock st |}).
    destruct (poll_cases c st1) as [(e & w' & ->)|(v & w' & ->)]; cbn [result events final].
    + cbn. repeat split; auto. repeat constructor; intros secs; discriminate.
    + rewrite run_bind.
      destruct (wait_loop_shape c fuel v {| world := w'; clock := clock st1 |})
        as (Hsr & Ht & Hfive & _ & Hclock).
      set (r := wait_loop fuel c v {| world := w'; clock := clock st1 |}) in *.
      assert (Hshape : forall tail,
                 count is_sleep tail = 0%nat -> count is_read tail = 0%nat ->
                 count is_time tail = 0%nat -> Forall sleeps_five tail ->
                 let evs := [EvCall (ReplaceContainer (database_id database_client)
                                       (container_id c) {| path := "/id" |}
                                       policy_exclude_field2)]
                            ++ [EvPrint ("Indexing policy updated" +:+ nl)]
                            ++ poll_events c v ++ events r ++ tail in
                 count is_time evs = 0%nat
                 /\ Forall sleeps_five evs
                 /\ count is_sleep evs = Nat.pred (count is_read evs)
                 /\ clock (final r) = Nat.iter (count is_sleep evs) (time_sleep E 5) (clock st)).
      { intros tail Hs Hr Htm Hf. cbv zeta.
        rewrite !count_app, Ht, Hs, Hr, Htm, Hclock.
        cbn [count List.filter is_sleep is_read is_time poll_events app length Nat.add].
        fold (count is_sleep (events r)). fold (count is_read (events r)).
        split; [reflexivity|]. split; [|split].
        - repeat (constructor; [intros secs Hsecs; discriminate Hsecs|]).
          rewrite Forall_app. split; assumption.
        - lia.
        - rewrite Nat.add_0_r. reflexivity. }
      destruct (result r) as [[]| |]; cbn [result events final print print_end].
      * apply (Hshape [EvPrint ((nl +:+ "Index transformation completed") +:+ nl)]);
          try reflexivity.
        repeat constructor. intros secs; discriminate.
      * rewrite <- (app_nil_r (events r)). apply (Hshape []); try reflexivity. constructor.
      * rewrite <- (app_nil_r (events r)). apply (Hshape []); try reflexivity. constructor.
Qed.

(** X6. Cell 11 prints its last line, that the transformation completed,
    in the runs that complete and in no other: not after a read that raised,
    not after a missing progress header, not while it is still polling. *)
Theorem completion_line_only_when_completed
    fuel (database_client : DatabaseProxy) (c : ContainerProxy) (st : state E) :
  let r := cell11 fuel database_client c st in
  In (EvPrint ((nl +:+ "Index transformation completed") +:+ nl)) (events r)
  <-> result r = Ok tt.
Proof.
  cbv zeta. fold completed_line.
  unfold cell11, db_replace_container. rewrite run_bind.
  destruct (replace_container E (database_id database_client) (container_id c)
              {| path := "/id" |} policy_exclude_field2 (world st)) as [[e|[]] w] eqn:Hrep.
  - rewrite (run_call_raise _ _ _ _ _ Hrep). cbn [result events].
    split; [|discriminate]. intros [H|[H|[]]]; discriminate.
  - rewrite (run_call_ok _ _ _ _ _ Hrep). cbn [result events final].
    rewrite run_bind. cbn [print print_end result events final].
    unfold wait_for_transformation. rewrite run_bind.
    set (st1 := {| world := w; clock := clock st |}).
    destruct (poll_cases c st1) as [(e & w' & ->)|(v & w' & ->)]; cbn [result events final].
    + split; [|discriminate].
      intros [H|[H|[H|[H|[]]]]];
        solve [discriminate H
              |unfold completed_line in H; injection H as H; cbn in H; discriminate H].
    + rewrite run_bind.
      destruct (wait_loop_shape c fuel v {| world := w'; clock := clock st1 |})
        as (_ & _ & _ & Hdone & _).
      set (r := wait_loop fuel c v {| world := w'; clock := clock st1 |}) in *.
      assert (Hbefore : forall tail,
                 In completed_line
                    ([EvCall (ReplaceContainer (database_id database_client)
                                (container_id c) {| path := "/id" |}
                                policy_exclude_field2)]
                     ++ [EvPrint ("Indexing policy updated" +:+ nl)]
                     ++ poll_events c v ++ events r ++ tail)
                 -> In completed_line tail).
      { intros tail. rewrite !in_app_iff.
        intros [[H|[]]|[[H|[]]|[[H|[H|[]]]|[H|H]]]];
          solve [discriminate H
                |contradiction
                |exact H
                |unfold completed_line in H; injection H as H; cbn in H; discriminate H]. }
      destruct (result r) as [[]| |]; cbn [result events final print print_end].
      * split; [reflexivity|]. intros _. rewrite !in_app_iff.
        right. right. right. right. left. reflexivity.
      * split; [|discriminate]. intros H.
        rewrite <- (app_nil_r (events r)) in H. destruct (Hbefore [] H).
      * split; [|discriminate]. intros H.
        rewrite <- (app_nil_r (events r)) in H. destruct (Hbefore [] H).
Qed.

End WaitShape.

(** ** Which calls a cell can make *)

Section CallFilter.
Context {E : Env}.
Variable q : api -> bool.

Lemma keeps_ret {A} (a : A) : keeps (on_calls q) (ret (E := E) a).
Proof. intros st. constructor. Qed.

Lemma keeps_throw {A} e : keeps (on_calls q) (throw (E := E) (A := A) e).
Proof. intros st. repeat constructor. Qed.

Lemma keeps_reraise {A} e : keeps (on_calls q) (reraise (E := E) (A := A) e).
Proof. intros st. constructor. Qed.

Lemma keeps_out_of_fuel {A} : keeps (on_calls q) (out_of_fuel (E := E) (A := A)).
Proof. intros st. constructor. Qed.

Lemma keeps_lift {X} (r : exn + X) : keeps (on_calls q) (lift (E := E) r).
Proof. destruct r; [apply keeps_throw|apply keeps_ret]. Qed.

Lemma keeps_print_end s end_ : keeps (on_calls q) (print_end (E := E) s end_).
Proof. intros st. repeat constructor. Qed.

Lemma keeps_print s : keeps (on_calls q) (print (E := E) s).
Proof. apply keeps_print_end. Qed.

Lemma keeps_sleep secs : keeps (on_calls q) (sleep (E := E) secs).
Proof. intros st. repeat constructor. Qed.

Lemma keeps_time : keeps (on_calls q) (time (E := E)).
Proof. intros st. unfold time. destruct (time_time E (clock st)). repeat constructor. Qed.

Lemma keeps_get_header key : keeps (on_calls q) (get_header (E := E) key).
Proof.
  intros st. unfold get_header.
  destruct (last_response_headers E (world st) !! key);
    [apply keeps_ret|apply keeps_throw].
Qed.

Lemma keeps_call {X} c (op : World E -> (exn + X) * World E) :
  q c = true -> keeps (on_calls q) (call c op).
Proof.
  intros Hc st. unfold call.
  destruct (op (world st)) as [[e|x] w]; repeat constructor; exact Hc.
Qed.

Lemma keeps_bind {A B} (m : M E A) (k : A -> M E B) :
  keeps (on_calls q) m -> (forall a, keeps (on_calls q) (k a)) ->
  keeps (on_calls q) (m ≫= k).
Proof.
  intros Hm Hk st. rewrite run_bind. specialize (Hm st).
  destruct (result (m st)) as [a| |]; cbn [events]; try exact Hm.
  rewrite Forall_app. split; [exact Hm|apply Hk].
Qed.

Lemma keeps_try_except {A} (body : M E A) handler :
  keeps (on_calls q) body ->
  (forall e h, handler e = Some h -> keeps (on_calls q) h) ->
  keeps (on_calls q) (try_except body handler).
Proof.
  intros Hb Hh st. unfold try_except. specialize (Hb st).
  destruct (result (body st)) as [a|e|]; try exact Hb.
  destruct (handler e) as [h|] eqn:He; [|exact Hb].
  cbn [events]. rewrite Forall_app. split; [exact Hb|apply (Hh e h He)].
Qed.

Lemma keeps_cell1 :
  q (CreateDatabase db_name) = true ->
  q (ListContainers db_name) = true ->
  q (DeleteContainer db_name container_name) = true ->
  q (CreateContainer db_name container_name {| path := "/id" |}) = true ->
  keeps (on_calls q) (cell1 (E := E)).
Proof.
  intros H1 H2 H3 H4. unfold cell1, create_database_step, reset_container.
  apply keeps_bind.
  - apply keeps_try_except.
    + apply keeps_bind; [apply keeps_call, H1|]. intros _.
      apply keeps_bind; [apply keeps_print|]. intros _. apply keeps_sleep.
    + intros e h. destruct e as [sc| | |]; try discriminate.
      cbn [on_cosmos_error]. intros [= <-].
      destruct (sc =? 409); [apply keeps_print|apply keeps_reraise].
  - intros _. apply keeps_bind; [|intros _; apply keeps_ret].
    apply keeps_bind; [apply keeps_call, H2|]. intros l.
    apply keeps_bind.
    + destruct (existsb _ l); [|apply keeps_ret].
      apply keeps_bind; [apply keeps_call, H3|]. intros _. apply keeps_print.
    + intros _. apply keeps_bind; [apply keeps_call, H4|]. intros _. apply keeps_print.
Qed.

Lemma keeps_insert_docs (c : ContainerProxy) docs :
  (forall body, q (CreateItem (of_database c) (container_id c) body) = true) ->
  forall progress, keeps (on_calls q) (insert_docs (E := E) c docs progress).
Proof.
  intros Hq. induction docs as [|doc rest IH]; intros progress; simpl.
  - apply keeps_ret.
  - apply keeps_bind.
    + destruct (progress mod 10 =? 0); [apply keeps_print_end|apply keeps_ret].
    + intros _. apply keeps_bind; [apply keeps_call, Hq|]. intros _. apply IH.
Qed.

Lemma keeps_cell3 (db : DatabaseProxy) :
  q (UrlOpen data_url) = true ->
  (forall body, q (CreateItem (database_id db) container_name body) = true) ->
  keeps (on_calls q) (cell3 (E := E) db).
Proof.
  intros H1 H2. unfold cell3, urlopen.
  apply keeps_bind; [apply keeps_call, H1|]. intros text.
  apply keeps_bind; [apply keeps_lift|]. intros docs.
  apply keeps_bind; [apply keeps_lift|]. intros items.
  apply keeps_bind; [apply keeps_insert_docs, H2|]. intros _. apply keeps_ret.
Qed.

Lemma keeps_query_cell query (c : ContainerProxy) :
  q (QueryItems (of_database c) (container_id c) query true) = true ->
  keeps (on_calls q) (query_cell (E := E) query c).
Proof.
  intros H. unfold query_cell, container_query_items.
  apply keeps_bind; [apply keeps_time|]. intros t0.
  apply keeps_bind; [apply keeps_call, H|]. intros results.
  apply keeps_bind; [apply keeps_time|]. intros t1.
  apply keeps_bind; [apply keeps_print|]. intros _.
  apply keeps_bind; [apply keeps_print|]. intros _.
  apply keeps_bind; [apply keeps_get_header|]. intros charge.
  apply keeps_bind; [apply keeps_print|]. intros _. apply keeps_ret.
Qed.

Lemma keeps_cell7 (db : DatabaseProxy) (c : ContainerProxy) :
  q (ReplaceContainer (database_id db) (container_id c) {| path := "/id" |} policy_none)
  = true ->
  keeps (on_calls q) (cell7 (E := E) db c).
Proof.
  intros H. unfold cell7, db_replace_container.
  apply keeps_bind; [apply keeps_call, H|]. intros _. apply keeps_print.
Qed.

Lemma keeps_poll (c : ContainerProxy) :
  q (ReadContainer (of_database c) (container_id c) true) = true ->
  keeps (on_calls q) (poll (E := E) c).
Proof.
  intros H. unfold poll, container_read.
  apply keeps_bind; [apply keeps_call, H|]. intros _.
  apply keeps_bind; [apply keeps_get_header|]. intros v.
  apply keeps_bind; [apply keeps_print_end|]. intros _. apply keeps_ret.
Qed.

Lemma keeps_wait_loop (c : ContainerProxy) fuel :
  q (ReadContainer (of_database c) (container_id c) true) = true ->
  forall p, keeps (on_calls q) (wait_loop (E := E) fuel c p).
Proof.
  intros H. induction fuel as [|fuel IH]; intros p; simpl;
    destruct (String.eqb p "100"); try apply keeps_ret.
  - apply keeps_out_of_fuel.
  - apply keeps_bind; [apply keeps_sleep|]. intros _.
    apply keeps_bind; [apply keeps_poll, H|]. intros v. apply IH.
Qed.

Lemma keeps_cell11 fuel (db : DatabaseProxy) (c : ContainerProxy) :
  q (ReplaceContainer (database_id db) (container_id c) {| path := "/id" |}
       policy_exclude_field2) = true ->
  q (ReadContainer (of_database c) (container_id c) true) = true ->
  keeps (on_calls q) (cell11 (E := E) fuel db c).
Proof.
  intros H1 H2. unfold cell11, db_replace_container, wait_for_transformation.
  apply keeps_bind; [apply keeps_call, H1|]. intros _.
  apply keeps_bind; [apply keeps_print|]. intros _.
  apply keeps_bind; [apply keeps_poll, H2|]. intros v.
  apply keeps_bind; [apply keeps_wait_loop, H2|]. intros _. apply keeps_print.
Qed.

(** A failing event of [l1 ++ l2] lies in [l2] when all of [l1] passes. *)
Lemma split_after (l1 : list event) :
  forall l2 pre x post,
    Forall (fun ev => on_calls q ev = true) l1 ->
    on_calls q x = false ->
    l1 ++ l2 = pre ++ x :: post ->
    exists mid, pre = l1 ++ mid /\ l2 = mid ++ x :: post.
Proof.
  induction l1 as [|a l1 IH]; intros l2 pre x post Hall Hx Heq.
  - exists pre. auto.
  - inversion Hall as [|? ? Ha Hall']; subst.
    destruct pre as [|b pre]; simpl in Heq.
    + injection Heq as -> _. congruence.
    + injection Heq as -> Heq.
      destruct (IH l2 pre x post Hall' Hx Heq) as (mid & -> & ->).
      exists mid. auto.
Qed.

Lemma passes_everywhere (l : list event) pre x post :
  Forall (fun ev => on_calls q ev = true) l ->
  l = pre ++ x :: post -> on_calls q x = true.
Proof.
  intros Hall ->. rewrite Forall_app in Hall. destruct Hall as [_ Hall].
  now inversion Hall.
Qed.

End CallFilter.

(** ** Where the notebook writes and where it cleans up *)

Section WritesAndTeardown.
Context {E : Env}.

Lemma attempted_none (l : list event) :
  Forall (fun ev => on_calls not_create_item ev = true) l -> attempted l = [].
Proof.
  induction 1 as [|ev l Hev _ IH]; [reflexivity|].
  destruct ev as [[]| | | |]; simpl in *; try discriminate; exact IH.
Qed.

(** Cells 5 to 17 make no [create_item] call. *)
Lemma keeps_after_load_no_insert fuel (db : DatabaseProxy) (c : ContainerProxy) :
  keeps (on_calls not_create_item)
    (cell5 (E := E) c ;; cell7 db c ;; cell9 c ;; cell11 fuel db c ;;
     cell13 c ;; cell15 c ;; cell17).
Proof.
  apply keeps_bind; [apply keeps_query_cell; reflexivity|]. intros _.
  apply keeps_bind; [apply keeps_cell7; reflexivity|]. intros _.
  apply keeps_bind; [apply keeps_query_cell; reflexivity|]. intros _.
  apply keeps_bind; [apply keeps_cell11; reflexivity|]. intros _.
  apply keeps_bind; [apply keeps_query_cell; reflexivity|]. intros _.
  apply keeps_bind; [apply keeps_query_cell; reflexivity|]. intros _.
  apply keeps_call. reflexivity.
Qed.

(** X8. The notebook writes documents in cell 3 only: in any run, no
    [create_item] call comes after a [query_items] call, so every query of
    a run is made against what the load left. *)
Theorem no_insert_after_a_query fuel (st : state E) pre db c query cross post :
  events (notebook fuel st) = pre ++ EvCall (QueryItems db c query cross) :: post ->
  attempted post = [].
Proof.
  unfold notebook. rewrite run_bind.
  pose proof (keeps_cell1 not_query_items eq_refl eq_refl eq_refl eq_refl st) as H1.
  destruct (result (cell1 st)) as [database_client| |]; cbn [events].
  - rewrite run_bind.
    pose proof (keeps_cell3 not_query_items database_client eq_refl (fun _ => eq_refl)
                  (final (cell1 st))) as H3.
    destruct (result (cell3 database_client (final (cell1 st)))) as [container_client| |];
      cbn [events]; intros Heq.
    + destruct (split_after not_query_items _ _ _ (EvCall (QueryItems db c query cross)) _ H1 eq_refl Heq) as (mid1 & _ & Heq1).
      destruct (split_after not_query_items _ _ _ (EvCall (QueryItems db c query cross)) _ H3 eq_refl Heq1) as (mid2 & _ & Heq2).
      pose proof (keeps_after_load_no_insert fuel database_client container_client
                    (final (cell3 database_client (final (cell1 st))))) as HR.
      rewrite Heq2 in HR. rewrite Forall_app in HR. destruct HR as [_ HR].
      inversion HR as [|? ? _ Hpost]; subst. apply attempted_none, Hpost.
    + destruct (split_after not_query_items _ _ _ (EvCall (QueryItems db c query cross)) _ H1 eq_refl Heq) as (mid1 & _ & Heq1).
      pose proof (passes_everywhere not_query_items _ _ _ _ H3 Heq1). discriminate.
    + destruct (split_after not_query_items _ _ _ (EvCall (QueryItems db c query cross)) _ H1 eq_refl Heq) as (mid1 & _ & Heq1).
      pose proof (passes_everywhere not_query_items _ _ _ _ H3 Heq1). discriminate.
  - intros Heq. pose proof (passes_everywhere not_query_items _ _ _ _ H1 Heq). discriminate.
  - intros Heq. pose proof (passes_everywhere not_query_items _ _ _ _ H1 Heq). discriminate.
Qed.

Lemma teardown_last_bind {A} (m : M E A) (k : A -> M E unit) :
  keeps (on_calls not_delete_database) m ->
  (forall a st, teardown_last (k a st)) ->
  forall st, teardown_last ((m ≫= k) st).
Proof.
  intros Hm Hk st. rewrite run_bind. specialize (Hm st).
  destruct (result (m st)) as [a|e|] eqn:Hres.
  - destruct (Hk a (final (m st))) as (before & Hb & Hcases).
    exists (events (m st) ++ before). split; [rewrite Forall_app; auto|].
    cbn [result events]. rewrite <- !app_assoc.
    destruct Hcases as [[-> ->]|[(e & -> & ->)|[Hne ->]]].
    + left. auto.
    + right. left. exists e. rewrite <- app_assoc. auto.
    + right. right. auto.
  - exists (events (m st)). split; [exact Hm|]. right. right. split; [discriminate|reflexivity].
  - exists (events (m st)). split; [exact Hm|]. right. right. split; [discriminate|reflexivity].
Qed.

Lemma teardown_last_cell17 (st : state E) : teardown_last (cell17 st).
Proof.
  unfold cell17, cosmos_delete_database. exists []. split; [constructor|].
  destruct (delete_database E db_name (world st)) as [[e|[]] w] eqn:H.
  - rewrite (run_call_raise _ _ _ _ _ H). right. left. eauto.
  - rewrite (run_call_ok _ _ _ _ _ H). left. auto.
Qed.

(** X7. The notebook has no cleanup on failure.  In any run,
    [delete_database] is called at most once and as the last call: a run
    that completes ends with it; one in which an earlier cell raised, or
    which is still polling, has not called it and leaves the database
    behind; the only other case is that [delete_database] itself raised. *)
Theorem teardown_only_after_every_cell fuel (st : state E) :
  let r := notebook fuel st in
  exists before,
    Forall (fun ev => on_calls not_delete_database ev = true) before
    /\ ((result r = Ok tt /\ events r = before ++ [EvCall (DeleteDatabase db_name)])
        \/ (exists e, result r = Raise e
                      /\ events r = before ++ [EvCall (DeleteDatabase db_name); EvRaised e])
        \/ (result r <> Ok tt /\ events r = before)).
Proof.
  cbv zeta. change (teardown_last (notebook fuel st)). revert st. unfold notebook.
  apply teardown_last_bind; [apply keeps_cell1; reflexivity|]. intros db.
  apply teardown_last_bind; [apply keeps_cell3; reflexivity|]. intros c.
  apply teardown_last_bind; [apply keeps_query_cell; reflexivity|]. intros _.
  apply teardown_last_bind; [apply keeps_cell7; reflexivity|]. intros _.
  apply teardown_last_bind; [apply keeps_query_cell; reflexivity|]. intros _.
  apply teardown_last_bind; [apply keeps_cell11; reflexivity|]. intros _.
  apply teardown_last_bind; [apply keeps_query_cell; reflexivity|]. intros _.
  apply teardown_last_bind; [apply keeps_query_cell; reflexivity|]. intros _.
  apply teardown_last_cell17.
Qed.

End WritesAndTeardown.

(** ** The calls of a run that completes *)

Section Protocol.
Context {E : Env}.

Lemma calls_app (l1 l2 : list event) : calls (l1 ++ l2) = calls l1 ++ calls l2.
Proof.
  induction l1 as [|ev l1 IH]; [reflexivity|].
  destruct ev; simpl; rewrite ?IH; reflexivity.
Qed.

Lemma create_database_step_ok_calls (st : state E) :
  result (create_database_step st) = Ok tt ->
  calls (events (create_database_step st)) = [CreateDatabase db_name].
Proof.
  destruct (create_database E db_name (world st)) as [[e|[]] w] eqn:Hc.
  - destruct (decide (e = CosmosHttpResponseError 409)) as [->|Hne].
    + rewrite (create_database_step_conflict st w Hc). reflexivity.
    + rewrite (create_database_step_other st e w Hc Hne). discriminate.
  - rewrite (create_database_step_created st w Hc). reflexivity.
Qed.

Lemma cell1_ok_calls (st : state E) database_client :
  result (cell1 st) = Ok database_client ->
  database_client = get_database_client db_name
  /\ exists l w1,
       list_containers E db_name (world (final (create_database_step st))) = (inr l, w1)
       /\ calls (events (cell1 st))
          = [CreateDatabase db_name; ListContainers db_name]
            ++ (if listed l then [DeleteContainer db_name container_name] else [])
            ++ [CreateContainer db_name container_name {| path := "/id" |}].
Proof.
  intros Hres.
  destruct (cell1_ok_inv st database_client Hres) as (Hdb & Hstep & Hreset & _ & Hev).
  destruct (reset_container_ok_inv _ Hreset) as (l & w1 & w2 & Hl & _ & _ & Hevr).
  split; [exact Hdb|]. exists l, w1. split; [exact Hl|].
  rewrite Hev, calls_app, (create_database_step_ok_calls st Hstep), Hevr.
  destruct (listed l); reflexivity.
Qed.

Lemma insert_docs_ok_calls (c : ContainerProxy) docs :
  forall progress (st : state E) n,
    result (insert_docs c docs progress st) = Ok n ->
    calls (events (insert_docs c docs progress st))
    = map (CreateItem (of_database c) (container_id c)) docs.
Proof.
  induction docs as [|doc rest IH]; intros progress st n; [reflexivity|].
  simpl insert_docs.
  destruct (progress_line_run progress st) as (evs & Hrun & Hevs).
  rewrite run_bind, Hrun. cbn [result events final].
  rewrite run_bind. unfold container_create_item.
  destruct (create_item E (of_database c) (container_id c) doc (world st))
    as [[e|x] w] eqn:Hci;
    [rewrite (run_call_raise _ _ _ _ _ Hci)|rewrite (run_call_ok _ _ _ _ _ Hci)];
    cbn [result events final]; [discriminate|].
  intros Hres. rewrite !calls_app, (IH _ _ n Hres).
  destruct Hevs as [->|[s ->]]; reflexivity.
Qed.

Lemma cell3_ok_calls (database_client : DatabaseProxy) (st : state E) container_client :
  result (cell3 database_client st) = Ok container_client ->
  container_client = get_container_client database_client container_name
  /\ exists text w docs inserted,
       urlopen_read E data_url (world st) = (inr text, w)
       /\ json_loads E text = inr docs
       /\ py_iter docs = inr inserted
       /\ calls (events (cell3 database_client st))
          = UrlOpen data_url
            :: map (CreateItem (database_id database_client) container_name) inserted.
Proof.
  unfold cell3. rewrite run_bind. unfold urlopen.
  destruct (urlopen_read E data_url (world st)) as [[e|text] w] eqn:Hurl;
    [rewrite (run_call_raise _ _ _ _ _ Hurl); discriminate|].
  rewrite (run_call_ok _ _ _ _ _ Hurl). cbn [result events final].
  rewrite run_bind.
  destruct (json_loads E text) as [e|docs] eqn:Hjson; [discriminate|].
  cbn [lift ret result events final]. rewrite run_bind.
  destruct (py_iter docs) as [e|items] eqn:Hiter; [discriminate|].
  cbn [lift ret result events final]. rewrite run_bind.
  destruct (result (insert_docs _ items 1 _)) as [n| |] eqn:Hload;
    cbn [result events final ret]; try discriminate.
  intros [= <-]. split; [reflexivity|]. exists text, w, docs, items.
  split; [reflexivity|]. split; [exact Hjson|]. split; [exact Hiter|].
  rewrite app_nil_r. cbn [app calls].
  rewrite (insert_docs_ok_calls _ items 1 _ n Hload). reflexivity.
Qed.

Lemma query_cell_ok_calls query (c : ContainerProxy) (st : state E) results :
  result (query_cell query c st) = Ok results ->
  calls (events (query_cell query c st))
  = [QueryItems (of_database c) (container_id c) query true].
Proof.
  intros Hres.
  destruct (query_cell_ok_inv query c st results Hres)
    as (t0 & c1 & w1 & t1 & c2 & charge & Ht0 & Hq & Ht1 & Hh).
  rewrite (query_cell_run query c st t0 c1 results w1 t1 c2 charge Ht0 Hq Ht1 Hh).
  reflexivity.
Qed.

Lemma cell7_ok_calls (db : DatabaseProxy) (c : ContainerProxy) (st : state E) :
  result (cell7 db c st) = Ok tt ->
  calls (events (cell7 db c st))
  = [ReplaceContainer (database_id db) (container_id c) {| path := "/id" |} policy_none].
Proof.
  unfold cell7, db_replace_container. rewrite run_bind.
  destruct (replace_container E (database_id db) (container_id c) {| path := "/id" |}
              policy_none (world st)) as [[e|[]] w] eqn:H.
  - rewrite (run_call_raise _ _ _ _ _ H). discriminate.
  - rewrite (run_call_ok _ _ _ _ _ H). reflexivity.
Qed.

Lemma calls_later_polls (c : ContainerProxy) vs :
  calls (later_polls c vs)
  = repeat (ReadContainer (of_database c) (container_id c) true) (length vs).
Proof. induction vs as [|v vs IH]; [reflexivity|]. simpl. now rewrite IH. Qed.

Lemma calls_polling_events (c : ContainerProxy) vs :
  calls (polling_events c vs)
  = repeat (ReadContainer (of_database c) (container_id c) true) (length vs).
Proof. destruct vs as [|v vs]; [reflexivity|]. simpl. now rewrite calls_later_polls. Qed.

Lemma cell11_ok_calls fuel (db : DatabaseProxy) (c : ContainerProxy) (st : state E) :
  result (cell11 fuel db c st) = Ok tt ->
  exists w pre w',
    replace_container E (database_id db) (container_id c) {| path := "/id" |}
      policy_exclude_field2 (world st) = (inr tt, w)
    /\ observations c (S (length pre)) w = Some (pre ++ ["100"%string], w')
    /\ Forall (fun v => v <> "100"%string) pre
    /\ (length pre <= fuel)%nat
    /\ calls (events (cell11 fuel db c st))
       = ReplaceContainer (database_id db) (container_id c) {| path := "/id" |}
           policy_exclude_field2
         :: repeat (ReadContainer (of_database c) (container_id c) true) (S (length pre)).
Proof.
  unfold cell11, db_replace_container. rewrite run_bind.
  destruct (replace_container E (database_id db) (container_id c) {| path := "/id" |}
              policy_exclude_field2 (world st)) as [[e|[]] w] eqn:H.
  - rewrite (run_call_raise _ _ _ _ _ H). discriminate.
  - rewrite (run_call_ok _ _ _ _ _ H). cbn [result events final].
    rewrite run_bind. cbn [print print_end result events final].
    intros Hres.
    destruct (wait_for_transformation_ok_inv fuel c {| world := w; clock := clock st |} Hres)
      as (pre & Hall & Hlen & Hobs & Hev).
    exists w, pre, (world (final (wait_for_transformation fuel c
                                    {| world := w; clock := clock st |}))).
    split; [reflexivity|]. split; [exact Hobs|]. split; [exact Hall|]. split; [exact Hlen|].
    rewrite Hev. cbn [app calls]. rewrite calls_app, calls_polling_events, length_app.
    cbn [length transformation_completed calls]. rewrite app_nil_r.
    replace (length pre + 1)%nat with (S (length pre)) by lia. reflexivity.
Qed.

Lemma cell17_ok_calls (st : state E) :
  result (cell17 st) = Ok tt -> calls (events (cell17 st)) = [DeleteDatabase db_name].
Proof.
  unfold cell17, cosmos_delete_database.
  destruct (delete_database E db_name (world st)) as [[e|[]] w] eqn:H.
  - rewrite (run_call_raise _ _ _ _ _ H). discriminate.
  - rewrite (run_call_ok _ _ _ _ _ H). reflexivity.
Qed.

(** X10. A run of the notebook that completes makes its calls in one
    order: create the database; list the containers; delete the container,
    exactly when that listing showed its name; create it; fetch the data;
    one [create_item] per value iterated from the parsed data, in order;
    the field1 query; the policy update to none; the field1 query; the
    policy update excluding field2; one read of the container per poll up
    to the first that reported 100; the field1 query; the field2 query;
    and [delete_database]. *)
Theorem completed_run_follows_the_protocol fuel (st : state E) :
  let db := get_database_client db_name in
  let c := get_container_client db container_name in
  let r1 := cell1 st in
  let r3 := cell3 db (final r1) in
  let r5 := cell5 c (final r3) in
  let r7 := cell7 db c (final r5) in
  let r9 := cell9 c (final r7) in
  result (notebook fuel st) = Ok tt ->
  exists l w1 text w3 docs inserted w10 pre w11,
    list_containers E db_name (world (final (create_database_step st))) = (inr l, w1)
    /\ urlopen_read E data_url (world (final r1)) = (inr text, w3)
    /\ json_loads E text = inr docs
    /\ py_iter docs = inr inserted
    /\ replace_container E db_name container_name {| path := "/id" |}
         policy_exclude_field2 (world (final r9)) = (inr tt, w10)
    /\ observations c (S (length pre)) w10 = Some (pre ++ ["100"%string], w11)
    /\ Forall (fun v => v <> "100"%string) pre
    /\ (length pre <= fuel)%nat
    /\ calls (events (notebook fuel st)) = protocol (listed l) inserted (S (length pre)).
Proof.
  cbv zeta. unfold notebook. rewrite run_bind.
  destruct (result (cell1 st)) as [db| |] eqn:H1; try discriminate.
  destruct (cell1_ok_calls st db H1) as (Hdb & l & w1 & Hl & C1). subst db.
  set (db := get_database_client db_name) in *.
  cbn [result events final]. set (s1 := final (cell1 st)). rewrite run_bind.
  destruct (result (cell3 db s1)) as [c| |] eqn:H3; try discriminate.
  destruct (cell3_ok_calls db s1 c H3) as (Hc & text & w3 & docs & inserted
                                           & Hurl & Hjson & Hiter & C3). subst c.
  set (c := get_container_client db container_name) in *.
  cbn [result events final]. set (s3 := final (cell3 db s1)). rewrite run_bind.
  destruct (result (cell5 c s3)) as [r5| |] eqn:H5; try discriminate.
  cbn [result events final]. set (s5 := final (cell5 c s3)). rewrite run_bind.
  destruct (result (cell7 db c s5)) as [[]| |] eqn:H7; try discriminate.
  cbn [result events final]. set (s7 := final (cell7 db c s5)). rewrite run_bind.
  destruct (result (cell9 c s7)) as [r9| |] eqn:H9; try discriminate.
  cbn [result events final]. set (s9 := final (cell9 c s7)). rewrite run_bind.
  destruct (result (cell11 fuel db c s9)) as [[]| |] eqn:H11; try discriminate.
  cbn [result events final]. set (s11 := final (cell11 fuel db c s9)). rewrite run_bind.
  destruct (result (cell13 c s11)) as [r13| |] eqn:H13; try discriminate.
  cbn [result events final]. set (s13 := final (cell13 c s11)). rewrite run_bind.
  destruct (result (cell15 c s13)) as [r15| |] eqn:H15; try discriminate.
  cbn [result events final]. set (s15 := final (cell15 c s13)).
  intros H17.
  destruct (cell11_ok_calls fuel db c s9 H11) as (w10 & pre & w11 & Hrep & Hobs & Hall
                                                  & Hlen & C11).
  exists l, w1, text, w3, docs, inserted, w10, pre, w11.
  split; [exact Hl|]. split; [exact Hurl|]. split; [exact Hjson|]. split; [exact Hiter|].
  split; [exact Hrep|]. split; [exact Hobs|]. split; [exact Hall|]. split; [exact Hlen|].
  rewrite !calls_app, C1, C3, C11.
  unfold cell5, cell9, cell13, cell15 in *.
  rewrite (query_cell_ok_calls _ c s3 r5 H5), (cell7_ok_calls db c s5 H7),
    (query_cell_ok_calls _ c s7 r9 H9), (query_cell_ok_calls _ c s11 r13 H13),
    (query_cell_ok_calls _ c s13 r15 H15), (cell17_ok_calls s15 H17).
  unfold protocol. rewrite <- !app_assoc. reflexivity.
Qed.

End Protocol.

(** ** These on the in-memory account *)

Lemma cell3_stops_before_inserting_witness :
  (urlopen_read Sim.env data_url (world (Sim.start Sim.garbled))
   = (inr "<html>"%string, Sim.garbled)
   /\ json_loads Sim.env "<html>" = inl (OtherError "JSONDecodeError"))
  /\ result (cell3 Sim.the_database (Sim.start Sim.garbled))
     = Raise (OtherError "JSONDecodeError")
  /\ events (cell3 Sim.the_database (Sim.start Sim.garbled))
     = [EvCall (UrlOpen data_url); EvRaised (OtherError "JSONDecodeError")].
Proof.
  split; [split; reflexivity|].
  destruct (cell3_stops_before_inserting (E := Sim.env) Sim.the_database
              (Sim.start Sim.garbled) (OtherError "JSONDecodeError"))
    as (Hres & Hev & _).
  - right. left. exists "<html>"%string, Sim.garbled. split; reflexivity.
  - split; [exact Hres|exact Hev].
Defined.

Lemma load_appends_to_the_container_witness :
  create_item_adds Sim.env Sim.dbs
  /\ urlopen_pure Sim.env Sim.dbs
  /\ result (cell3 Sim.the_database (Sim.start Sim.loaded)) = Ok Sim.the_container
  /\ exists cs',
       Sim.dbs (world (final (cell3 Sim.the_database (Sim.start Sim.loaded)))) !! db_name
       = Some cs'
       /\ cs' !! container_name
          = Some {| policy := default_policy; items := Sim.sample ++ Sim.sample |}.
Proof.
  assert (Hres : result (cell3 Sim.the_database (Sim.start Sim.loaded))
                 = Ok Sim.the_container) by (vm_compute; reflexivity).
  split; [exact sim_create_item_adds|]. split; [exact sim_urlopen_pure|].
  split; [exact Hres|].
  apply (load_appends_to_the_container (E := Sim.env) Sim.dbs Sim.the_database
           (Sim.start Sim.loaded) "sample"%string Sim.loaded Sim.sample
           {[ container_name := {| policy := default_policy; items := Sim.sample |} ]}
           {| policy := default_policy; items := Sim.sample |} Sim.the_container
           sim_create_item_adds sim_urlopen_pure eq_refl eq_refl).
  - vm_compute. reflexivity.
  - vm_compute. reflexivity.
  - exact Hres.
Defined.

Lemma query_cell_raises_without_output_witness :
  time_time Sim.env (clock (Sim.start Sim.fresh)) = (0, 3)
  /\ query_items Sim.env db_name container_name query_field1 true Sim.fresh
     = (inl (CosmosHttpResponseError 404), Sim.fresh)
  /\ events (cell5 Sim.the_container (Sim.start Sim.fresh))
     = [EvTime;
        EvCall (QueryItems db_name container_name query_field1 true);
        EvRaised (CosmosHttpResponseError 404)].
Proof.
  split; [reflexivity|]. split; [reflexivity|].
  unfold cell5.
  rewrite (query_cell_raises_without_output (E := Sim.env) query_field1 Sim.the_container
             (Sim.start Sim.fresh) 0 3 (CosmosHttpResponseError 404) Sim.fresh
             eq_refl eq_refl).
  reflexivity.
Defined.

Lemma query_cell_without_charge_header_witness :
  last_response_headers Sim.env_without_headers
    (snd (query_items Sim.env_without_headers db_name container_name query_field1 true
            Sim.loaded)) !! charge_header = None
  /\ result (cell5 (E := Sim.env_without_headers) Sim.the_container
               (Build_state (E := Sim.env_without_headers) Sim.loaded 0))
     = Raise (KeyError charge_header).
Proof.
  split; [reflexivity|].
  unfold cell5.
  rewrite (query_cell_without_charge_header (E := Sim.env_without_headers) query_field1
             Sim.the_container (Build_state (E := Sim.env_without_headers) Sim.loaded 0)
             0 3 [Sim.doc "Mario86" 3188; Sim.doc "Mario86" 12]
             (snd (query_items Sim.env_without_headers db_name container_name query_field1
                     true Sim.loaded))
             3 6).
  - reflexivity.
  - reflexivity.
  - vm_compute. reflexivity.
  - reflexivity.
  - reflexivity.
Defined.

Lemma no_insert_after_a_query_witness :
  let evs := events (notebook 5 (Sim.start Sim.fresh)) in
  evs = firstn 12 evs
        ++ EvCall (QueryItems db_name container_name query_field1 true) :: skipn 13 evs
  /\ attempted (firstn 12 evs) = Sim.sample
  /\ attempted (skipn 13 evs) = [].
Proof.
  intros evs.
  assert (Heq : evs = firstn 12 evs
                      ++ EvCall (QueryItems db_name container_name query_field1 true)
                         :: skipn 13 evs) by (vm_compute; reflexivity).
  split; [exact Heq|]. split; [vm_compute; reflexivity|].
  apply (no_insert_after_a_query (E := Sim.env) 5 (Sim.start Sim.fresh) (firstn 12 evs)
           db_name container_name query_field1 true (skipn 13 evs) Heq).
Defined.

Lemma completed_run_follows_the_protocol_witness :
  result (notebook 5 (Sim.start Sim.fresh)) = Ok tt
  /\ calls (events (notebook 5 (Sim.start Sim.fresh))) = protocol false Sim.sample 3
  /\ exists l inserted (pre : list string),
       fst (list_containers Sim.env db_name
              (world (final (create_database_step (Sim.start Sim.fresh))))) = inr l
       /\ py_iter (JArr Sim.sample) = inr inserted
       /\ calls (events (notebook 5 (Sim.start Sim.fresh)))
          = protocol (listed l) inserted (S (length pre)).
Proof.
  assert (Hres : result (notebook 5 (Sim.start Sim.fresh)) = Ok tt)
    by (vm_compute; reflexivity).
  split; [exact Hres|]. split; [vm_compute; reflexivity|].
  destruct (completed_run_follows_the_protocol (E := Sim.env) 5 (Sim.start Sim.fresh) Hres)
    as (l & w1 & text & w3 & docs & inserted & w10 & pre & w11
        & Hl & Hurl & Hjson & Hiter & _ & _ & _ & _ & Hcalls).
  exists l, inserted, pre.
  split; [now rewrite Hl|]. split; [|exact Hcalls].
  assert (Htext : text = "sample"%string) by (now injection Hurl as <- _).
  subst text. assert (Hdocs : docs = JArr Sim.sample) by (now injection Hjson as <-).
  subst docs. exact Hiter.
Defined.
